(** * YoutubeVideoAutomation: script_generator.py and generate_script.py

    A shallow embedding of the script generator (class [VideoScriptGenerator])
    and of its command-line front end, with the properties of the
    response sectioning, the file naming, the persistence and the batch
    generation that the specification states.

    Python strings are sequences of Unicode code points; the case mapping
    and the character classes of the interpreter ([str.upper],
    [str.isspace], [str.isalnum]) are an interface, [Unicode], of which
    the ASCII fragment is fixed by a law.  The remote completion service,
    the clock and the environment are oracles of a [world]; the dictionaries
    the program builds live in a heap of objects, the console and the
    files in the program state. *)

From Stdlib Require Import String Ascii DecimalString.
From Stdlib Require Import List NArith ZArith Bool Lia.
Import ListNotations.

(** ** Python strings *)

Module PyStr.

Definition cp := N.
Definition str := list cp.

(** An ASCII literal of the source, as code points. *)
Definition lit (s : string) : str :=
  map N_of_ascii (list_ascii_of_string s).
Arguments lit s%_string.

Definition nl : cp := 10%N.
Definition space : cp := 32%N.
Definition hyphen : cp := 45%N.
Definition underscore : cp := 95%N.
Definition dquote : cp := 34%N.
Definition backslash : cp := 92%N.

Fixpoint str_eqb (a b : str) : bool :=
  match a, b with
  | [], [] => true
  | x :: a', y :: b' => N.eqb x y && str_eqb a' b'
  | _, _ => false
  end.

(** [s.startswith(p)] *)
Fixpoint starts_with (p s : str) : bool :=
  match p, s with
  | [], _ => true
  | _ :: _, [] => false
  | a :: p', b :: s' => N.eqb a b && starts_with p' s'
  end.

(** [needle in hay] *)
Fixpoint contains (needle hay : str) : bool :=
  match hay with
  | [] => starts_with needle []
  | _ :: t => starts_with needle hay || contains needle t
  end.

(** [s.split(sep)] for a one-character separator: never an empty list. *)
Fixpoint split_on (sep : cp) (s : str) : list str :=
  match s with
  | [] => [[]]
  | c :: t =>
      if N.eqb c sep then [] :: split_on sep t
      else match split_on sep t with
           | [] => [[c]]
           | l :: ls => (c :: l) :: ls
           end
  end.

(** [sep.join(ls)] *)
Fixpoint join (sep : str) (ls : list str) : str :=
  match ls with
  | [] => []
  | l :: rest =>
      match rest with
      | [] => l
      | _ :: _ => l ++ sep ++ join sep rest
      end
  end.

(** [s.replace(old, new)]: left to right, occurrences that do not overlap.
    [skip] counts the characters of an occurrence still to be dropped. *)
Fixpoint replace_from (old new : str) (skip : nat) (s : str) : str :=
  match s with
  | [] => []
  | c :: t =>
      match skip with
      | S k => replace_from old new k t
      | O =>
          if starts_with old s
          then new ++ replace_from old new (length old - 1) t
          else c :: replace_from old new 0 t
      end
  end.

Definition replace (old new s : str) : str :=
  match old with
  | [] => new ++ flat_map (fun c => c :: new) s
  | _ :: _ => replace_from old new 0 s
  end.

(** [s * n] *)
Fixpoint repeat_str (s : str) (n : nat) : str :=
  match n with
  | O => []
  | S k => s ++ repeat_str s k
  end.

(** [str(n)] of a non-negative integer, and of an integer. *)
Definition str_of_nat (n : nat) : str :=
  lit (NilEmpty.string_of_uint (Nat.to_uint n)).

Definition str_of_Z (z : Z) : str :=
  lit (NilEmpty.string_of_int (Z.to_int z)).

(** *** The interpreter's Unicode tables *)

Class Unicode := {
  (** [chr(c).upper()]: one character may map to several *)
  upper_cp : cp -> list cp;
  (** [chr(c).isspace()] *)
  isspace : cp -> bool;
  (** [chr(c).isalnum()] *)
  isalnum : cp -> bool;
  (** ASCII capitals and the space are their own upper case *)
  upper_cp_capital :
    forall c, (N.leb 65 c && N.leb c 90) || N.eqb c 32 = true ->
              upper_cp c = [c]
}.

Section WithUnicode.
Context {U : Unicode}.

(** [s.upper()] *)
Definition upper (s : str) : str := flat_map upper_cp s.

(** [s.lstrip()], [s.rstrip()], [s.strip()] *)
Fixpoint lstrip (s : str) : str :=
  match s with
  | [] => []
  | c :: t => if isspace c then lstrip t else s
  end.

Fixpoint rstrip (s : str) : str :=
  match s with
  | [] => []
  | c :: t =>
      match rstrip t with
      | [] => if isspace c then [] else [c]
      | r => c :: r
      end
  end.

Definition strip (s : str) : str := rstrip (lstrip s).

End WithUnicode.

(** The ASCII fragment of the tables; code points above 127 are left
    without case and in no class.  Used to run the program on ASCII text. *)
Definition ascii_upper_cp (c : cp) : list cp :=
  if N.leb 97 c && N.leb c 122 then [(c - 32)%N] else [c].

Definition ascii_isspace (c : cp) : bool :=
  (N.leb 9 c && N.leb c 13) || (N.leb 28 c && N.leb c 32).

Definition ascii_isalnum (c : cp) : bool :=
  (N.leb 48 c && N.leb c 57) || (N.leb 65 c && N.leb c 90)
  || (N.leb 97 c && N.leb c 122).

Lemma ascii_upper_cp_capital :
  forall c, (N.leb 65 c && N.leb c 90) || N.eqb c 32 = true ->
            ascii_upper_cp c = [c].
Proof.
  intros c H. unfold ascii_upper_cp.
  destruct (N.leb 97 c && N.leb c 122) eqn:E; [|reflexivity].
  apply andb_true_iff in E. destruct E as [E1 E2].
  apply N.leb_le in E1.
  apply orb_true_iff in H. destruct H as [H|H].
  - apply andb_true_iff in H. destruct H as [_ H]. apply N.leb_le in H. lia.
  - apply N.eqb_eq in H. lia.
Qed.

Definition ascii_tables : Unicode := {|
  upper_cp := ascii_upper_cp;
  isspace := ascii_isspace;
  isalnum := ascii_isalnum;
  upper_cp_capital := ascii_upper_cp_capital
|}.

End PyStr.
Import PyStr.

(** ** Python values, exceptions, dictionaries *)

Module Py.

(** The values the program handles: strings, integers and [None]. *)
Inductive value :=
| VStr (s : str)
| VInt (n : Z)
| VNone.

(** The exceptions the program can see; all derive from [Exception], and
    [UnicodeEncodeError] derives from [ValueError]. *)
Inductive exn :=
| ValueError (msg : str)
| UnicodeEncodeError (msg : str)
| AttributeError (msg : str)
| TypeError (msg : str)
| KeyError (key : str)
| ServiceError (msg : str)
| OSError (msg : str)
| Exception (msg : str).

(** [str(e)]; a [KeyError] shows its key quoted. *)
Definition exn_str (e : exn) : str :=
  match e with
  | ValueError m | UnicodeEncodeError m | AttributeError m | TypeError m => m
  | ServiceError m | OSError m | Exception m => m
  | KeyError k => lit "'" ++ k ++ lit "'"
  end.

(** What [except ValueError] catches. *)
Definition is_ValueError (e : exn) : bool :=
  match e with
  | ValueError _ | UnicodeEncodeError _ => true
  | _ => false
  end.

Inductive result (A : Type) :=
| Ok (a : A)
| Raise (e : exn).
Arguments Ok {A} a.
Arguments Raise {A} e.

Definition rbind {A B} (r : result A) (k : A -> result B) : result B :=
  match r with
  | Ok a => k a
  | Raise e => Raise e
  end.

(** The name of a value's type, as error messages show it. *)
Definition type_name (v : value) : str :=
  match v with
  | VStr _ => lit "str"
  | VInt _ => lit "int"
  | VNone => lit "NoneType"
  end.

Definition no_attribute (v : value) (attr : str) : exn :=
  AttributeError (lit "'" ++ type_name v ++ lit "' object has no attribute '"
                  ++ attr ++ lit "'").

(** [text.split('\n')] *)
Definition py_split_lines (text : value) : result (list str) :=
  match text with
  | VStr s => Ok (split_on nl s)
  | _ => Raise (no_attribute text (lit "split"))
  end.

(** [v.upper()] *)
Definition py_upper {U : Unicode} (v : value) : result str :=
  match v with
  | VStr s => Ok (upper s)
  | _ => Raise (no_attribute v (lit "upper"))
  end.

(** [for c in v] *)
Definition py_iter_chars (v : value) : result str :=
  match v with
  | VStr s => Ok s
  | _ => Raise (TypeError (lit "'" ++ type_name v
                           ++ lit "' object is not iterable"))
  end.

(** [len(v)] *)
Definition py_len (v : value) : result nat :=
  match v with
  | VStr s => Ok (length s)
  | _ => Raise (TypeError (lit "object of type '" ++ type_name v
                           ++ lit "' has no len()"))
  end.

(** [v[:n]] *)
Definition py_slice_to (v : value) (n : nat) : result str :=
  match v with
  | VStr s => Ok (firstn n s)
  | _ => Raise (TypeError (lit "'" ++ type_name v
                           ++ lit "' object is not subscriptable"))
  end.

(** The name by which a message shows an argument that is refused:
    [None] by its name, any other value by its type. *)
Definition argument_name (v : value) : str :=
  match v with
  | VNone => lit "None"
  | _ => type_name v
  end.

(** The text of [v] inside an f-string. *)
Definition format_value (v : value) : str :=
  match v with
  | VStr s => s
  | VInt n => str_of_Z n
  | VNone => lit "None"
  end.

(** Python truth of an optional string: [None] and [''] are false. *)
Definition truthy (o : option str) : bool :=
  match o with
  | Some (_ :: _) => true
  | _ => false
  end.

(** A dictionary keeps its keys in the order of their first insertion. *)
Definition dict := list (str * value).

Fixpoint dict_get (d : dict) (k : str) : option value :=
  match d with
  | [] => None
  | (k', v) :: rest => if str_eqb k' k then Some v else dict_get rest k
  end.

(** [d[k] = v] *)
Fixpoint dict_set (d : dict) (k : str) (v : value) : dict :=
  match d with
  | [] => [(k, v)]
  | (k', v') :: rest =>
      if str_eqb k' k then (k', v) :: rest else (k', v') :: dict_set rest k v
  end.

Definition dict_keys (d : dict) : list str := map fst d.

(** [d[k]] *)
Definition getitem (d : dict) (k : str) : result value :=
  match dict_get d k with
  | Some v => Ok v
  | None => Raise (KeyError k)
  end.

(** *** json.dump(d, f, indent=2, ensure_ascii=False) *)

Definition hex_digit (n : N) : cp :=
  if N.ltb n 10 then (48 + n)%N else (87 + n)%N.

Definition json_escape (c : cp) : str :=
  if N.eqb c 34 then [backslash; dquote]
  else if N.eqb c 92 then [backslash; backslash]
  else if N.eqb c 10 then backslash :: lit "n"
  else if N.eqb c 13 then backslash :: lit "r"
  else if N.eqb c 9 then backslash :: lit "t"
  else if N.eqb c 8 then backslash :: lit "b"
  else if N.eqb c 12 then backslash :: lit "f"
  else if N.ltb c 32
       then backslash :: lit "u00"
            ++ [hex_digit (c / 16); hex_digit (c mod 16)]
       else [c].

Definition json_string (s : str) : str :=
  [dquote] ++ flat_map json_escape s ++ [dquote].

Definition json_value (v : value) : str :=
  match v with
  | VStr s => json_string s
  | VInt n => str_of_Z n
  | VNone => lit "null"
  end.

Definition json_item (kv : str * value) : str :=
  lit "  " ++ json_string (fst kv) ++ lit ": " ++ json_value (snd kv).

Definition json_dumps (d : dict) : str :=
  match d with
  | [] => lit "{}"
  | _ :: _ =>
      lit "{" ++ [nl] ++ join (lit "," ++ [nl]) (map json_item d)
      ++ [nl] ++ lit "}"
  end.

End Py.
Import Py.

(** ** The world outside and the state of a run *)

Module Run.

(** A reading of [datetime.now()], by the two renderings the program takes
    of it: [isoformat()] and [strftime("%Y%m%d_%H%M%S")]. *)
Record datetime := {
  isoformat : str;
  strftime_compact : str
}.

(** The oracles: the environment variable [OPENAI_API_KEY], the completion
    service (its [k]-th call on a prompt either raises, with a message, or
    yields [response.choices[0].message.content]), the clock, and the file
    system ([open(path, 'w')] either succeeds or raises [OSError] with a
    message: a missing directory, a name too long, no permission). *)
Record world := {
  getenv_api_key : option str;
  chat_completion : nat -> str -> str + value;
  clock : nat -> datetime;
  open_error : str -> option str
}.

(** Dictionaries are objects: a reference is an index into the heap.
    The console holds one entry per [print] that succeeded, the text passed
    to it.  A file maps to its content. *)
Definition ref := nat.

Record state := {
  heap : list dict;
  stdout : list str;
  files : list (str * str);
  openai_api_key : option str;
  chat_calls : nat;
  clock_reads : nat
}.

Definition M (A : Type) : Type := world -> state -> result A * state.

Definition ret {A} (a : A) : M A := fun _ st => (Ok a, st).

Definition bind {A B} (c : M A) (k : A -> M B) : M B :=
  fun w st =>
    match c w st with
    | (Ok a, st') => k a w st'
    | (Raise e, st') => (Raise e, st')
    end.

Definition raise {A} (e : exn) : M A := fun _ st => (Raise e, st).

(** [try: c except Exception as e: h e]; what [c] did before raising stays. *)
Definition try_except {A} (c : M A) (h : exn -> M A) : M A :=
  fun w st =>
    match c w st with
    | (Ok a, st') => (Ok a, st')
    | (Raise e, st') => h e w st'
    end.

(** [try: c except ValueError as e: h e]; any other exception passes. *)
Definition try_except_ValueError {A} (c : M A) (h : exn -> M A) : M A :=
  fun w st =>
    match c w st with
    | (Ok a, st') => (Ok a, st')
    | (Raise e, st') => if is_ValueError e then h e w st' else (Raise e, st')
    end.

Definition lift {A} (r : result A) : M A := fun _ st => (r, st).

Declare Scope py_scope.
Delimit Scope py_scope with py.
Notation "x <- c ;; k" := (bind c (fun x => k))
  (at level 61, c at next level, right associativity) : py_scope.
Notation "c ;; k" := (bind c (fun _ => k))
  (at level 61, right associativity) : py_scope.
Open Scope py_scope.

(** *** Primitive effects *)

(** The stream [sys.stdout]: a text either fits its encoding, or writing it
    raises [UnicodeEncodeError] with a message. *)
Class Stdout := { encode_error : str -> option str }.

(** A stream that takes every text, as [io.StringIO] does, or a UTF-8
    terminal for text without lone surrogates.  What names no stream is
    about this one. *)
#[global] Instance text_stream : Stdout := {| encode_error := fun _ => None |}.

(** [print(line)]: nothing is written when the text does not fit. *)
Definition print {out : Stdout} (line : str) : M unit :=
  fun _ st =>
    match encode_error line with
    | Some msg => (Raise (UnicodeEncodeError msg), st)
    | None =>
        (Ok tt, {| heap := heap st; stdout := stdout st ++ [line];
                   files := files st; openai_api_key := openai_api_key st;
                   chat_calls := chat_calls st;
                   clock_reads := clock_reads st |})
    end.

(** The stream takes a text, or each text of a list. *)
Definition fits {out : Stdout} (text : str) : bool :=
  match encode_error text with
  | None => true
  | Some _ => false
  end.

Definition takes {out : Stdout} (lines : list str) : bool :=
  forallb fits lines.

(** A stream with the encoding 'ascii' and strict errors.  The message
    names the first run of characters above 127, as CPython words it:
    one character by its escape, several by their positions. *)
Fixpoint hex_fixed (width : nat) (n : N) : str :=
  match width with
  | O => []
  | S k => hex_fixed k (n / 16) ++ [hex_digit (n mod 16)]
  end.

Definition char_escape (c : cp) : str :=
  if N.ltb c 256 then backslash :: lit "x" ++ hex_fixed 2 c
  else if N.ltb c 65536 then backslash :: lit "u" ++ hex_fixed 4 c
  else backslash :: lit "U" ++ hex_fixed 8 c.

Definition is_ascii (c : cp) : bool := N.ltb c 128.

Fixpoint run_length (text : str) : nat :=
  match text with
  | [] => 0
  | c :: rest => if is_ascii c then 0 else S (run_length rest)
  end.

Fixpoint ascii_encode_error_from (position : nat) (text : str)
  : option str :=
  match text with
  | [] => None
  | c :: rest =>
      if is_ascii c then ascii_encode_error_from (S position) rest
      else
        Some (lit "'ascii' codec can't encode "
              ++ (match run_length rest with
                  | O => lit "character '" ++ char_escape c
                         ++ lit "' in position " ++ str_of_nat position
                  | S n => lit "characters in position "
                           ++ str_of_nat position ++ lit "-"
                           ++ str_of_nat (position + S n)
                  end)
              ++ lit ": ordinal not in range(128)")
  end.

Definition ascii_stream : Stdout :=
  {| encode_error := ascii_encode_error_from 0 |}.

Definition os_getenv : M (option str) :=
  fun w st => (Ok (getenv_api_key w), st).

Definition set_openai_api_key (k : str) : M unit :=
  fun _ st =>
    (Ok tt, {| heap := heap st; stdout := stdout st; files := files st;
               openai_api_key := Some k;
               chat_calls := chat_calls st; clock_reads := clock_reads st |}).

(** [datetime.now()] *)
Definition datetime_now : M datetime :=
  fun w st =>
    (Ok (clock w (clock_reads st)),
     {| heap := heap st; stdout := stdout st; files := files st;
        openai_api_key := openai_api_key st;
        chat_calls := chat_calls st; clock_reads := S (clock_reads st) |}).

(** [openai.ChatCompletion.create(...).choices[0].message.content] *)
Definition chat_create (prompt : str) : M value :=
  fun w st =>
    let st' := {| heap := heap st; stdout := stdout st; files := files st;
                  openai_api_key := openai_api_key st;
                  chat_calls := S (chat_calls st);
                  clock_reads := clock_reads st |} in
    match chat_completion w (chat_calls st) prompt with
    | inl msg => (Raise (ServiceError msg), st')
    | inr content => (Ok content, st')
    end.

(** A dictionary display allocates a new object. *)
Definition alloc (d : dict) : M ref :=
  fun _ st =>
    (Ok (length (heap st)),
     {| heap := heap st ++ [d]; stdout := stdout st; files := files st;
        openai_api_key := openai_api_key st;
        chat_calls := chat_calls st; clock_reads := clock_reads st |}).

Definition deref (st : state) (r : ref) : dict := nth r (heap st) [].

Fixpoint list_update {A} (l : list A) (i : nat) (a : A) : list A :=
  match l, i with
  | [], _ => []
  | _ :: t, O => a :: t
  | x :: t, S j => x :: list_update t j a
  end.

(** [r[k] = v]: the object itself changes, for every holder of [r]. *)
Definition setitem (r : ref) (k : str) (v : value) : M unit :=
  fun _ st =>
    (Ok tt,
     {| heap := list_update (heap st) r (dict_set (deref st r) k v);
        stdout := stdout st; files := files st;
        openai_api_key := openai_api_key st;
        chat_calls := chat_calls st; clock_reads := clock_reads st |}).

(** [r[k]] *)
Definition getitem_ref (r : ref) (k : str) : M value :=
  fun _ st => (getitem (deref st r) k, st).

Definition read_dict (r : ref) : M dict :=
  fun _ st => (Ok (deref st r), st).

(** *** Files *)

Fixpoint file_get (fs : list (str * str)) (path : str) : option str :=
  match fs with
  | [] => None
  | (p, c) :: rest => if str_eqb p path then Some c else file_get rest path
  end.

Fixpoint file_put (fs : list (str * str)) (path content : str)
  : list (str * str) :=
  match fs with
  | [] => [(path, content)]
  | (p, c) :: rest =>
      if str_eqb p path then (p, content) :: rest
      else (p, c) :: file_put rest path content
  end.

Definition set_files (fs : list (str * str)) : M unit :=
  fun _ st =>
    (Ok tt, {| heap := heap st; stdout := stdout st; files := fs;
               openai_api_key := openai_api_key st;
               chat_calls := chat_calls st; clock_reads := clock_reads st |}).

(** [open(path, 'w')]: the file is created or emptied, or [OSError] is
    raised and nothing changes. *)
Definition open_w (path : str) : M unit :=
  fun w st =>
    match open_error w path with
    | Some msg => (Raise (OSError msg), st)
    | None => set_files (file_put (files st) path []) w st
    end.

(** [f.write(v)]: only a string can be written. *)
Definition file_write (path : str) (v : value) : M unit :=
  fun w st =>
    match v with
    | VStr s =>
        let old := match file_get (files st) path with
                   | Some c => c
                   | None => []
                   end in
        set_files (file_put (files st) path (old ++ s)) w st
    | _ => (Raise (TypeError (lit "write() argument must be str, not "
                              ++ argument_name v)), st)
    end.

End Run.
Import Run.

(** ** script_generator.py: class VideoScriptGenerator *)

Module VideoScriptGenerator.

Section Generator.
Context {U : Unicode} {out : Stdout}.

Record generator := { api_key : str }.

(** [__init__(self, api_key=None)] *)
Definition __init__ (key : option str) : M generator :=
  chosen <- (if truthy key then ret key else os_getenv) ;;
  match chosen with
  | Some (c :: k) =>
      set_openai_api_key (c :: k) ;;
      ret {| api_key := c :: k |}
  | _ =>
      raise (ValueError (lit "OpenAI API key is required. Set OPENAI_API_KEY environment variable or pass it directly."))
  end.

(** [_build_prompt]: the template, line by line. *)
Definition _build_prompt
  (topic video_length style target_audience additional_requirements : str)
  : str :=
  [nl]
  ++ lit "Create a YouTube video script with the following specifications:" ++ [nl]
  ++ [nl]
  ++ lit "**Topic**: " ++ topic ++ [nl]
  ++ lit "**Video Length**: " ++ video_length ++ [nl]
  ++ lit "**Style**: " ++ style ++ [nl]
  ++ lit "**Target Audience**: " ++ target_audience ++ [nl]
  ++ lit "**Additional Requirements**: " ++ additional_requirements ++ [nl]
  ++ [nl]
  ++ lit "Please structure the script with the following sections:" ++ [nl]
  ++ [nl]
  ++ lit "1. **HOOK** (First 15 seconds - grab attention)" ++ [nl]
  ++ lit "2. **INTRODUCTION** (Introduce yourself and the topic)" ++ [nl]
  ++ lit "3. **MAIN CONTENT** (Core content broken into clear sections)" ++ [nl]
  ++ lit "4. **CALL TO ACTION** (Subscribe, like, comment prompts)" ++ [nl]
  ++ lit "5. **OUTRO** (Wrap up and next video tease)" ++ [nl]
  ++ [nl]
  ++ lit "For each section, provide:" ++ [nl]
  ++ lit "- The actual script text" ++ [nl]
  ++ lit "- [Stage directions/notes in brackets]" ++ [nl]
  ++ lit "- Estimated timing" ++ [nl]
  ++ [nl]
  ++ lit "Make the script engaging, conversational, and optimized for YouTube retention. Include natural pauses and emphasis points." ++ [nl].

(** *** _extract_section *)

(** ['**' in line or '#' in line] *)
Definition has_marker (line : str) : bool :=
  contains (lit "**") line || contains (lit "#") line.

Definition keywords : list str :=
  [lit "HOOK"; lit "INTRODUCTION"; lit "MAIN"; lit "CALL"; lit "OUTRO"].

(** [any(keyword in line.upper() for keyword in [...])] *)
Definition any_keyword (line : str) : bool :=
  existsb (fun keyword => contains keyword (upper line)) keywords.

(** The [for line in lines] loop; [in_section] and [section_lines] are its
    two variables.  [section_name.upper()] is evaluated at each line. *)
Fixpoint scan_lines (section_name : value) (lines : list str)
  (in_section : bool) (section_lines : list str) : result (list str) :=
  match lines with
  | [] => Ok section_lines
  | line :: rest =>
      rbind (py_upper section_name) (fun name_upper =>
        if contains name_upper (upper line) && has_marker line
        then scan_lines section_name rest true section_lines
        else if in_section && has_marker line && any_keyword line
        then Ok section_lines
        else if in_section
        then scan_lines section_name rest in_section (section_lines ++ [line])
        else scan_lines section_name rest in_section section_lines)
  end.

(** The body of the [try]. *)
Definition extract_body (text section_name : value) : result str :=
  rbind (py_split_lines text) (fun lines =>
  rbind (scan_lines section_name lines false []) (fun section_lines =>
  Ok (strip (join [nl] section_lines)))).

Definition section_not_found : str := lit "Section not found".

(** The bare [except:] turns every exception into the sentinel. *)
Definition _extract_section (text section_name : value) : str :=
  match extract_body text section_name with
  | Ok s => s
  | Raise _ => section_not_found
  end.

(** *** _parse_script_response *)

Definition section_names : list str :=
  [lit "HOOK"; lit "INTRODUCTION"; lit "MAIN CONTENT"; lit "CALL TO ACTION";
   lit "OUTRO"].

Definition script_record (topic : str) (generated_at : str) (response : value)
  : dict :=
  [ (lit "topic", VStr topic);
    (lit "generated_at", VStr generated_at);
    (lit "full_script", response);
    (lit "hook", VStr (_extract_section response (VStr (lit "HOOK"))));
    (lit "introduction",
     VStr (_extract_section response (VStr (lit "INTRODUCTION"))));
    (lit "main_content",
     VStr (_extract_section response (VStr (lit "MAIN CONTENT"))));
    (lit "call_to_action",
     VStr (_extract_section response (VStr (lit "CALL TO ACTION"))));
    (lit "outro", VStr (_extract_section response (VStr (lit "OUTRO")))) ].

Definition _parse_script_response (response : value) (topic : str) : M ref :=
  now <- datetime_now ;;
  alloc (script_record topic (isoformat now) response).

(** *** generate_script *)

(** The keyword arguments of [generate_script]; an absent one takes its
    default. *)
Record kwargs := {
  video_length : option str;
  style : option str;
  target_audience : option str;
  additional_requirements : option str
}.

Definition default {A} (o : option A) (d : A) : A :=
  match o with Some a => a | None => d end.

Definition no_kwargs : kwargs :=
  {| video_length := None; style := None; target_audience := None;
     additional_requirements := None |}.

Definition prompt_of (topic : str) (kw : kwargs) : str :=
  _build_prompt topic
    (default (video_length kw) (lit "5-10 minutes"))
    (default (style kw) (lit "educational"))
    (default (target_audience kw) (lit "general"))
    (default (additional_requirements kw) []).

Definition generate_script (topic : str) (kw : kwargs) : M ref :=
  let prompt := prompt_of topic kw in
  try_except
    (script_content <- chat_create prompt ;;
     _parse_script_response script_content topic)
    (fun e => raise (Exception (lit "Error generating script: " ++ exn_str e))).

(** *** save_script *)

(** [c.isalnum() or c in (' ', '-', '_')] *)
Definition keep_char (c : cp) : bool :=
  isalnum c || N.eqb c space || N.eqb c hyphen || N.eqb c underscore.

Definition safe_topic (topic : str) : str := rstrip (filter keep_char topic).

Definition derived_filename (topic timestamp : str) : str :=
  lit "script_" ++ replace [space] [underscore] (safe_topic topic)
  ++ lit "_" ++ timestamp ++ lit ".json".

Definition text_filename_of (filename : str) : str :=
  replace (lit ".json") (lit ".txt") filename.

Definition save_script (script_data : ref) (filename : option str) : M str :=
  filename <-
    (if truthy filename then ret (default filename [])
     else
       now <- datetime_now ;;
       let timestamp := strftime_compact now in
       topic <- getitem_ref script_data (lit "topic") ;;
       chars <- lift (py_iter_chars topic) ;;
       ret (derived_filename chars timestamp)) ;;
  open_w filename ;;
  d <- read_dict script_data ;;
  file_write filename (VStr (json_dumps d)) ;;
  let text_filename := text_filename_of filename in
  open_w text_filename ;;
  topic <- getitem_ref script_data (lit "topic") ;;
  file_write text_filename
    (VStr (lit "YouTube Video Script: " ++ format_value topic ++ [nl])) ;;
  generated_at <- getitem_ref script_data (lit "generated_at") ;;
  file_write text_filename
    (VStr (lit "Generated: " ++ format_value generated_at ++ [nl])) ;;
  file_write text_filename (VStr (repeat_str (lit "=") 50 ++ [nl; nl])) ;;
  full_script <- getitem_ref script_data (lit "full_script") ;;
  file_write text_filename full_script ;;
  ret filename.

(** *** generate_multiple_variations *)

(** One turn of the loop, for the index [i] of [range(count)]. *)
Definition variation_step (topic : str) (kw : kwargs) (i : nat)
  (variations : list ref) : M (list ref) :=
  try_except
    (script <- generate_script topic kw ;;
     setitem script (lit "variation") (VInt (Z.of_nat i + 1)) ;;
     ret (variations ++ [script]))
    (fun e =>
       print (lit "Error generating variation " ++ str_of_Z (Z.of_nat i + 1)
              ++ lit ": " ++ exn_str e) ;;
       ret variations).

Fixpoint variations_loop (topic : str) (kw : kwargs) (indices : list nat)
  (variations : list ref) : M (list ref) :=
  match indices with
  | [] => ret variations
  | i :: rest =>
      variations' <- variation_step topic kw i variations ;;
      variations_loop topic kw rest variations'
  end.

(** [range(count)] is empty for a count below one. *)
Definition generate_multiple_variations (topic : str) (count : Z)
  (kw : kwargs) : M (list ref) :=
  variations_loop topic kw (seq 0 (Z.to_nat count)) [].

(** *** main (the example at the end of script_generator.py) *)

Definition example_topic : str := lit "How to Start a YouTube Channel in 2024".

Definition example_kwargs : kwargs :=
  {| video_length := Some (lit "8-10 minutes");
     style := Some (lit "educational and motivational");
     target_audience := Some (lit "aspiring YouTubers and content creators");
     additional_requirements :=
       Some (lit "Include practical tips and current YouTube algorithm insights") |}.

(** The second [try] of [main]. *)
Definition main_generate : M unit :=
  script <- generate_script example_topic example_kwargs ;;
  filename <- save_script script None ;;
  print (lit "Script saved to: " ++ filename) ;;
  print (nl :: repeat_str (lit "=") 50) ;;
  print (lit "SCRIPT PREVIEW:") ;;
  print (repeat_str (lit "=") 50) ;;
  full_script <- getitem_ref script (lit "full_script") ;;
  head <- lift (py_slice_to full_script 500) ;;
  print (head ++ lit "...").

(** [main()]: the first [try] returns from the function in its handler. *)
Definition main : M unit :=
  generator <-
    try_except_ValueError
      (g <- __init__ None ;; ret (Some g))
      (fun e =>
         print (lit "Error: " ++ exn_str e) ;;
         print (lit "Please set your OpenAI API key as an environment variable:") ;;
         print (lit "export OPENAI_API_KEY='your-api-key-here'") ;;
         ret None) ;;
  match generator with
  | None => ret tt
  | Some _ =>
      print (lit "Generating script for: " ++ example_topic) ;;
      try_except main_generate (fun e => print (lit "Error: " ++ exn_str e))
  end.

End Generator.
End VideoScriptGenerator.
Import VideoScriptGenerator.

(** ** generate_script.py: the command line *)

Module Cli.

Section Main.
Context {U : Unicode} {out : Stdout}.

(** The parsed arguments; [--output] may be absent. *)
Record args := {
  topic : str;
  length_ : str;
  style_ : str;
  audience : str;
  requirements : str;
  variations : Z;
  output : option str
}.

Definition clapper : cp := 127916%N.
Definition ruler : cp := 128207%N.
Definition masks : cp := 127917%N.
Definition busts : cp := 128101%N.
Definition arrows : cp := 128260%N.
Definition check_mark : cp := 9989%N.
Definition memo : cp := 128221%N.
Definition bulb : cp := 128161%N.
Definition cross_mark : cp := 10060%N.
Definition key_sign : cp := 128273%N.

(** [args.output.replace('.', f'_v{i}.')] *)
Definition variation_filename (output : str) (i : nat) : str :=
  replace (lit ".") (lit "_v" ++ str_of_nat i ++ lit ".") output.

(** [for i, script in enumerate(scripts, 1)], from the index [i] on. *)
Fixpoint save_variations (out : option str) (i : nat) (scripts : list ref)
  : M unit :=
  match scripts with
  | [] => ret tt
  | script :: rest =>
      filename <- save_script script
                    (if truthy out
                     then Some (variation_filename (default out []) i)
                     else None) ;;
      print (check_mark :: lit " Variation " ++ str_of_nat i
             ++ lit " saved to: " ++ filename) ;;
      save_variations out (S i) rest
  end.

Definition kwargs_of (a : args) : kwargs :=
  {| video_length := Some (length_ a); style := Some (style_ a);
     target_audience := Some (audience a);
     additional_requirements := Some (requirements a) |}.

(** [s[:400] + "..." if len(s) > 400 else s] *)
Definition preview_of (full_script : value) : M value :=
  n <- lift (py_len full_script) ;;
  if Nat.ltb 400 n
  then match full_script with
       | VStr s => ret (VStr (firstn 400 s ++ lit "..."))
       | _ => ret full_script
       end
  else ret full_script.

Definition remediation : list str :=
  [ nl :: key_sign :: lit " To fix this:";
    lit "1. Get an OpenAI API key from https://platform.openai.com/api-keys";
    lit "2. Set it as an environment variable:";
    lit "   export OPENAI_API_KEY='your-key-here'";
    lit "3. Or create a .env file with your API key" ].

Fixpoint print_all (lines : list str) : M unit :=
  match lines with
  | [] => ret tt
  | l :: rest => print l ;; print_all rest
  end.

(** The body of the [try] of [main]. *)
Definition main_body (a : args) : M unit :=
  _ <- __init__ None ;;
  print (clapper :: lit " Generating script(s) for: " ++ topic a) ;;
  print (ruler :: lit " Length: " ++ length_ a) ;;
  print (masks :: lit " Style: " ++ style_ a) ;;
  print (busts :: lit " Audience: " ++ audience a) ;;
  if Z.ltb 1 (variations a)
  then
    print (arrows :: lit " Creating " ++ str_of_Z (variations a)
           ++ lit " variations...") ;;
    scripts <- generate_multiple_variations (topic a) (variations a)
                 (kwargs_of a) ;;
    save_variations (output a) 1 scripts
  else
    script <- generate_script (topic a) (kwargs_of a) ;;
    filename <- save_script script (output a) ;;
    print (check_mark :: lit " Script saved to: " ++ filename) ;;
    print (nl :: repeat_str (lit "=") 60) ;;
    print (memo :: lit " SCRIPT PREVIEW:") ;;
    print (repeat_str (lit "=") 60) ;;
    full_script <- getitem_ref script (lit "full_script") ;;
    preview <- preview_of full_script ;;
    print (format_value preview) ;;
    print (repeat_str (lit "=") 60) ;;
    print (bulb :: lit " Full script saved to " ++ filename).

(** [main()], after the arguments are parsed. *)
Definition main (a : args) : M unit :=
  try_except (main_body a)
    (fun e =>
       print (cross_mark :: lit " Error: " ++ exn_str e) ;;
       if contains (lit "API key") (exn_str e)
       then print_all remediation
       else ret tt).

End Main.
End Cli.

(** * Properties *)

(** ** Strings *)

Module StrFacts.

Lemma str_eqb_eq (a b : str) : str_eqb a b = true <-> a = b.
Proof.
  revert b. induction a as [|x a IH]; intros [|y b]; cbn [str_eqb];
    try (split; [discriminate|discriminate]); [tauto|].
  rewrite andb_true_iff, N.eqb_eq, IH. split.
  - intros [-> ->]. reflexivity.
  - intros E. injection E as -> ->. split; reflexivity.
Qed.

Lemma str_eqb_refl (s : str) : str_eqb s s = true.
Proof. apply str_eqb_eq. reflexivity. Qed.

Lemma str_eqb_neq (a b : str) : a <> b -> str_eqb a b = false.
Proof.
  intros N. destruct (str_eqb a b) eqn:E; [|reflexivity].
  apply str_eqb_eq in E. contradiction.
Qed.

Lemma starts_with_iff (p s : str) :
  starts_with p s = true <-> exists t, s = p ++ t.
Proof.
  revert s. induction p as [|a p IH]; intros s; simpl.
  - split; [intros _; exists s; reflexivity | reflexivity].
  - destruct s as [|b s].
    + split; [discriminate | intros [t Ht]; discriminate].
    + rewrite andb_true_iff, N.eqb_eq, IH. split.
      * intros [-> [t ->]]. exists t. reflexivity.
      * intros [t Ht]. injection Ht as -> ->. split; [reflexivity|].
        exists t. reflexivity.
Qed.

Lemma starts_with_app (p s : str) : starts_with p (p ++ s) = true.
Proof. apply starts_with_iff. exists s. reflexivity. Qed.

Lemma contains_iff (needle hay : str) :
  contains needle hay = true <-> exists a b, hay = a ++ needle ++ b.
Proof.
  induction hay as [|c t IH]; simpl.
  - rewrite starts_with_iff. split.
    + intros [u Hu]. exists [], u. exact Hu.
    + intros [a [b H]]. destruct a; [|discriminate]. exists b. exact H.
  - rewrite orb_true_iff, IH, starts_with_iff. split.
    + intros [[u Hu]|[a [b H]]].
      * exists [], u. exact Hu.
      * exists (c :: a), b. simpl. rewrite H. reflexivity.
    + intros [a [b H]]. destruct a as [|x a].
      * left. exists b. exact H.
      * right. injection H as _ H. exists a, b. exact H.
Qed.

Lemma contains_here (n b : str) : contains n (n ++ b) = true.
Proof. apply contains_iff. exists [], b. reflexivity. Qed.

Lemma contains_app_l (n a b : str) :
  contains n a = true -> contains n (a ++ b) = true.
Proof.
  rewrite !contains_iff. intros [x [y ->]]. exists x, (y ++ b).
  rewrite <- !app_assoc. reflexivity.
Qed.

Lemma contains_app_r (n a b : str) :
  contains n b = true -> contains n (a ++ b) = true.
Proof.
  rewrite !contains_iff. intros [x [y ->]]. exists (a ++ x), y.
  rewrite <- app_assoc. reflexivity.
Qed.

Lemma contains_cons (n : str) (c : cp) (b : str) :
  contains n b = true -> contains n (c :: b) = true.
Proof. apply (contains_app_r n [c] b). Qed.

(** [a in b] and [b in c] give [a in c]. *)
Lemma contains_trans (a b c : str) :
  contains a b = true -> contains b c = true -> contains a c = true.
Proof.
  rewrite !contains_iff. intros [x [y ->]] [u [v ->]].
  exists (u ++ x), (y ++ v). rewrite <- !app_assoc. reflexivity.
Qed.

(** Replacing a one-character string acts character by character. *)
Lemma replace_single (c : cp) (new s : str) :
  replace [c] new s = flat_map (fun x => if N.eqb x c then new else [x]) s.
Proof.
  unfold replace. induction s as [|x s IH]; [reflexivity|].
  cbn [replace_from starts_with length Nat.sub flat_map].
  rewrite N.eqb_sym. destruct (N.eqb x c) eqn:E; cbn [andb].
  - rewrite N.eqb_sym in E. rewrite IH. reflexivity.
  - rewrite IH. reflexivity.
Qed.

Lemma replace_char (c d : cp) (s : str) :
  replace [c] [d] s = map (fun x => if N.eqb x c then d else x) s.
Proof.
  rewrite replace_single. induction s as [|x s IH]; [reflexivity|].
  simpl. rewrite IH. destruct (N.eqb x c); reflexivity.
Qed.

Section Strip.
Context {U : Unicode}.

Lemma upper_app (a b : str) : upper (a ++ b) = upper a ++ upper b.
Proof. unfold upper. apply flat_map_app. Qed.

Definition capital_or_space (c : cp) : bool :=
  (N.leb 65 c && N.leb c 90) || N.eqb c 32.

(** An ASCII literal in capitals is its own upper case. *)
Lemma upper_capitals (s : str) :
  forallb capital_or_space s = true -> upper s = s.
Proof.
  induction s as [|c s IH]; [reflexivity|]. simpl.
  rewrite andb_true_iff. intros [Hc Hs].
  rewrite (upper_cp_capital c Hc), IH by exact Hs. reflexivity.
Qed.

Definition nonblank (s : str) : bool := existsb (fun c => negb (isspace c)) s.

Lemma lstrip_nonblank (s : str) : nonblank s = true -> nonblank (lstrip s) = true.
Proof.
  induction s as [|c s IH]; [discriminate|].
  cbn [lstrip]. destruct (isspace c) eqn:E.
  - cbn [nonblank existsb]. rewrite E. exact IH.
  - intros H. exact H.
Qed.

Lemma rstrip_nonblank (s : str) : nonblank s = true -> rstrip s <> [].
Proof.
  induction s as [|c s IH]; [discriminate|].
  cbn [nonblank existsb rstrip]. intros H.
  destruct (rstrip s) eqn:R.
  - destruct (isspace c) eqn:E; [|discriminate].
    cbn [negb orb] in H. specialize (IH H). congruence.
  - discriminate.
Qed.

Lemma strip_nonblank (s : str) : nonblank s = true -> strip s <> [].
Proof.
  intros H. apply rstrip_nonblank, lstrip_nonblank, H.
Qed.

Lemma nonblank_app_l (a b : str) : nonblank a = true -> nonblank (a ++ b) = true.
Proof.
  unfold nonblank. rewrite existsb_app. intros ->. reflexivity.
Qed.

Lemma nonblank_app_r (a b : str) : nonblank b = true -> nonblank (a ++ b) = true.
Proof.
  unfold nonblank. rewrite existsb_app. intros ->. apply orb_true_r.
Qed.

Lemma nonblank_join (sep : str) (ls : list str) :
  existsb nonblank ls = true -> nonblank (join sep ls) = true.
Proof.
  induction ls as [|l rest IH]; [discriminate|].
  cbn [existsb join]. rewrite orb_true_iff. intros [H|H].
  - destruct rest; [exact H|]. apply nonblank_app_l, H.
  - destruct rest as [|l' rest']; [discriminate|].
    apply nonblank_app_r, nonblank_app_r, IH, H.
Qed.

(** [rstrip] leaves a string alone unless it ends in white space. *)
Lemma rstrip_id (s : str) :
  (forall t c, s = t ++ [c] -> isspace c = false) -> rstrip s = s.
Proof.
  induction s as [|c s IH]; [reflexivity|]. intros H. cbn [rstrip].
  destruct s as [|c' s'].
  - cbn [rstrip]. rewrite (H [] c eq_refl). reflexivity.
  - rewrite IH.
    + reflexivity.
    + intros t x E. apply (H (c :: t) x). rewrite E. reflexivity.
Qed.


End Strip.

End StrFacts.
Import StrFacts.

(** ** Section extraction *)

Module ExtractFacts.

Section Extract.
Context {U : Unicode}.

(** A line is a header of [name] when it carries the name, in any case,
    and a marker; it stops a section when it carries a marker and one of the
    five keywords. *)
Definition is_header (name line : str) : bool :=
  contains (upper name) (upper line) && has_marker line.

Definition is_stop (line : str) : bool :=
  has_marker line && any_keyword line.

(** The loop of [_extract_section] on a name that is a string. *)
Fixpoint scan (name : str) (lines : list str) (in_section : bool)
  (section_lines : list str) : list str :=
  match lines with
  | [] => section_lines
  | line :: rest =>
      if is_header name line then scan name rest true section_lines
      else if in_section && is_stop line then section_lines
      else if in_section then scan name rest true (section_lines ++ [line])
      else scan name rest false section_lines
  end.

Lemma scan_lines_str (name : str) (lines : list str) :
  forall in_section acc,
    scan_lines (VStr name) lines in_section acc
    = Ok (scan name lines in_section acc).
Proof.
  induction lines as [|line rest IH]; intros b acc; [reflexivity|].
  cbn [scan_lines scan py_upper rbind]. unfold is_header, is_stop.
  destruct (contains (upper name) (upper line) && has_marker line);
    [apply IH|].
  destruct b; cbn [andb].
  - destruct (has_marker line && any_keyword line); [reflexivity|apply IH].
  - apply IH.
Qed.

Lemma extract_body_str (text name : str) :
  extract_body (VStr text) (VStr name)
  = Ok (strip (join [nl] (scan name (split_on nl text) false []))).
Proof.
  unfold extract_body. cbn [py_split_lines rbind].
  rewrite scan_lines_str. reflexivity.
Qed.

Lemma extract_section_str (text name : str) :
  _extract_section (VStr text) (VStr name)
  = strip (join [nl] (scan name (split_on nl text) false [])).
Proof. unfold _extract_section. rewrite extract_body_str. reflexivity. Qed.

(** Before the header nothing is collected. *)
Lemma scan_before (name : str) (pre rest : list str) (acc : list str) :
  forallb (fun l => negb (is_header name l)) pre = true ->
  scan name (pre ++ rest) false acc = scan name rest false acc.
Proof.
  induction pre as [|l pre IH]; [reflexivity|].
  cbn [forallb app scan]. rewrite andb_true_iff, negb_true_iff.
  intros [-> H]. cbn [andb]. apply IH, H.
Qed.

(** Inside the section every plain line is collected. *)
Lemma scan_inside (name : str) (body rest : list str) (acc : list str) :
  forallb (fun l => negb (is_header name l) && negb (is_stop l)) body = true ->
  scan name (body ++ rest) true acc = scan name rest true (acc ++ body).
Proof.
  revert acc. induction body as [|l body IH]; intros acc.
  - intros _. rewrite app_nil_r. reflexivity.
  - cbn [forallb app scan].
    rewrite !andb_true_iff, !negb_true_iff. intros [[-> ->] H].
    cbn [andb]. rewrite IH by exact H. rewrite <- app_assoc. reflexivity.
Qed.

(** Without a marker on any line the loop never enters a section. *)
Lemma scan_no_marker (name : str) (lines : list str) (acc : list str) :
  forallb (fun l => negb (has_marker l)) lines = true ->
  scan name lines false acc = acc.
Proof.
  induction lines as [|l lines IH]; [reflexivity|].
  cbn [forallb scan]. rewrite andb_true_iff, negb_true_iff. intros [Hl H].
  unfold is_header. rewrite Hl, andb_false_r. cbn [andb]. apply IH, H.
Qed.

(** Each section name contains one of the five keywords. *)
Lemma keyword_of_section (name : str) :
  In name section_names ->
  exists keyword, In keyword keywords /\ contains keyword name = true
                  /\ upper name = name.
Proof.
  intros H. cbn [section_names In] in H.
  destruct H as [<-|[<-|[<-|[<-|[<-|[]]]]]].
  - exists (lit "HOOK"). (split; [|split]);
      [cbn; tauto | reflexivity | apply upper_capitals; reflexivity].
  - exists (lit "INTRODUCTION"). (split; [|split]);
      [cbn; tauto | reflexivity | apply upper_capitals; reflexivity].
  - exists (lit "MAIN"). (split; [|split]);
      [cbn; tauto | reflexivity | apply upper_capitals; reflexivity].
  - exists (lit "CALL"). (split; [|split]);
      [cbn; tauto | reflexivity | apply upper_capitals; reflexivity].
  - exists (lit "OUTRO"). (split; [|split]);
      [cbn; tauto | reflexivity | apply upper_capitals; reflexivity].
Qed.

(** The header of any of the five sections stops the section before it. *)
Lemma header_is_stop (name line : str) :
  In name section_names -> is_header name line = true -> is_stop line = true.
Proof.
  intros Hin. unfold is_header, is_stop. rewrite !andb_true_iff.
  intros [Hc Hm]. split; [exact Hm|].
  destruct (keyword_of_section name Hin) as [kw [Hkw [Hsub Hup]]].
  rewrite Hup in Hc. unfold any_keyword. apply existsb_exists.
  exists kw. split; [exact Hkw|]. exact (contains_trans _ _ _ Hsub Hc).
Qed.

End Extract.
End ExtractFacts.
Import ExtractFacts.

(** ** Claims on section extraction *)

Section ExtractionClaims.
Context {U : Unicode}.

(** C10. On strings the body of the [try] of [_extract_section] always
    returns normally, so the function returns that string and the handler
    with its "Section not found" sentinel is never entered. *)
Theorem extract_section_total_on_strings :
  forall text section_name : str,
    exists s,
      extract_body (VStr text) (VStr section_name) = Ok s
      /\ _extract_section (VStr text) (VStr section_name) = s.
Proof.
  intros text name.
  exists (strip (join [nl] (scan name (split_on nl text) false []))).
  split; [apply extract_body_str | apply extract_section_str].
Qed.

(** C2 (as the code behaves). On a response with no marker on any line,
    [_extract_section] returns the empty string for each of the five
    section names, not the "Section not found" sentinel. *)
Theorem extract_section_no_marker_is_empty :
  forall text : str,
    forallb (fun l => negb (has_marker l)) (split_on nl text) = true ->
    forall name, In name section_names ->
      _extract_section (VStr text) (VStr name) = []
      /\ _extract_section (VStr text) (VStr name) <> section_not_found.
Proof.
  intros text H name _. rewrite extract_section_str.
  rewrite scan_no_marker by exact H. split; [reflexivity|discriminate].
Qed.

(** The section ends with the text or at the header of one of the five
    sections, which is not a header of the section itself. *)
Definition ends_at_header (name : str) (rest : list str) : bool :=
  match rest with
  | [] => true
  | h' :: _ =>
      negb (is_header name h')
      && existsb (fun name' => is_header name' h') section_names
  end.

(** C3 (amended). When no line before the header of a section carries the
    section's name with a marker, and no line of its body carries a marker
    with the section's name or with one of the five keywords, the section
    extracted is the body, its lines joined by newlines, stripped of the
    white space at both ends; if the body has a non-blank line it is not
    empty. *)
Theorem extract_section_bounded :
  forall (text name : str) (pre : list str) (h : str) (body rest : list str),
    split_on nl text = pre ++ h :: body ++ rest ->
    forallb (fun l => negb (is_header name l)) pre = true ->
    is_header name h = true ->
    forallb (fun l => negb (is_header name l) && negb (is_stop l)) body
    = true ->
    ends_at_header name rest = true ->
    _extract_section (VStr text) (VStr name) = strip (join [nl] body)
    /\ (existsb nonblank body = true ->
        _extract_section (VStr text) (VStr name) <> []).
Proof.
  intros text name pre h body rest Hsplit Hpre Hh Hbody Hrest.
  assert (E : _extract_section (VStr text) (VStr name)
              = strip (join [nl] body)).
  { rewrite extract_section_str, Hsplit, scan_before by exact Hpre.
    cbn [scan]. rewrite Hh, scan_inside by exact Hbody. cbn [app].
    destruct rest as [|h' rest']; [reflexivity|].
    cbn [ends_at_header] in Hrest.
    apply andb_true_iff in Hrest. destruct Hrest as [Hn Hex].
    apply negb_true_iff in Hn. apply existsb_exists in Hex.
    destruct Hex as [name' [Hin Hh']].
    cbn [scan]. rewrite Hn, (header_is_stop name' h' Hin Hh').
    reflexivity. }
  split; [exact E|]. intros Hnb. rewrite E.
  apply strip_nonblank, nonblank_join, Hnb.
Qed.

End ExtractionClaims.

(** *** Sample responses *)

Definition lines_text (lines : list str) : str := join [nl] lines.

Definition plain_response : str :=
  lines_text [ lit "Welcome back to the channel.";
               lit "Today we talk about cats." ].

Lemma extract_section_no_marker_is_empty_witness :
  forallb (fun l => negb (has_marker l)) (split_on nl plain_response) = true
  /\ In (lit "HOOK") section_names
  /\ _extract_section (U := ascii_tables) (VStr plain_response)
       (VStr (lit "HOOK")) = []
  /\ _extract_section (U := ascii_tables) (VStr plain_response)
       (VStr (lit "HOOK")) <> section_not_found.
Proof.
  assert (H : forallb (fun l => negb (has_marker l))
                (split_on nl plain_response) = true) by reflexivity.
  assert (I : In (lit "HOOK") section_names) by (left; reflexivity).
  split; [exact H|]. split; [exact I|].
  exact (extract_section_no_marker_is_empty (U := ascii_tables)
           plain_response H (lit "HOOK") I).
Defined.

(** A response with the five headers in order, each on its own line with a
    marker, and a non-blank body under each. *)
Definition hook_body : list str :=
  [ lit "Grab them!"; lit "**Main idea:** cats"; lit "more" ].

Definition five_layout : list (str * list str) :=
  [ (lit "**HOOK**", hook_body);
    (lit "## Introduction", [lit "hi"]);
    (lit "**MAIN CONTENT**", [lit "stuff"; lit "and more stuff"]);
    (lit "**CALL TO ACTION**", [lit "subscribe"]);
    (lit "**OUTRO**", [lit "bye"]) ].

Definition layout_lines (layout : list (str * list str)) : list str :=
  flat_map (fun hb => fst hb :: snd hb) layout.

Definition five_response : str := lines_text (layout_lines five_layout).

(** The reading of C3: the lines of the text are the five headers, in
    order, each a header of its section and followed by a body with a
    non-blank line. *)
Definition well_formed {U : Unicode} (text : str)
  (layout : list (str * list str)) : bool :=
  if list_eq_dec (list_eq_dec N.eq_dec) (split_on nl text)
       (layout_lines layout)
  then Nat.eqb (length layout) 5
       && forallb (fun nhb => is_header (fst nhb) (fst (snd nhb))
                              && existsb nonblank (snd (snd nhb)))
            (combine section_names layout)
  else false.

(** A response of the same kind, with an empty line after each header and
    before the next, as the service lays its answers out; no line of a body
    has a marker. *)
Definition spaced_hook_body : list str := [ []; lit "Grab them!"; [] ].

Definition spaced_layout : list (str * list str) :=
  [ (lit "**HOOK**", spaced_hook_body);
    (lit "**INTRODUCTION**", [ []; lit "Hi, I am Sam."; [] ]);
    (lit "**MAIN CONTENT**", [ []; lit "Cats sleep a lot."; [] ]);
    (lit "**CALL TO ACTION**", [ []; lit "Subscribe!"; [] ]);
    (lit "**OUTRO**", [ []; lit "Bye." ]) ].

Definition spaced_response : str := lines_text (layout_lines spaced_layout).

(** A response whose hook has a line that names a later section, with a
    marker. *)
Definition early_layout : list (str * list str) :=
  [ (lit "**HOOK**", [lit "Grab them!"; lit "# Stay for the outro"]);
    (lit "**INTRODUCTION**", [lit "Hi, I am Sam."]);
    (lit "**MAIN CONTENT**", [lit "Cats sleep a lot."]);
    (lit "**CALL TO ACTION**", [lit "Subscribe!"]);
    (lit "**OUTRO**", [lit "Bye."]) ].

Definition early_response : str := lines_text (layout_lines early_layout).

(** A response in which the header of the introduction names the hook. *)
Definition nested_layout : list (str * list str) :=
  [ (lit "**HOOK**", [lit "Grab them!"]);
    (lit "**INTRODUCTION** (after the hook)", [lit "Hi, I am Sam."]);
    (lit "**MAIN CONTENT**", [lit "Cats sleep a lot."]);
    (lit "**CALL TO ACTION**", [lit "Subscribe!"]);
    (lit "**OUTRO**", [lit "Bye."]) ].

Definition nested_response : str := lines_text (layout_lines nested_layout).

(** C3 fails as stated, in four ways, each on a well-formed response.
    A hook that holds a line with a marker and the word "Main" is cut at
    that line: what is returned is not the lines of the section, stripped
    or not.  With empty lines around each body, and no marker inside any
    body, the body is returned stripped, which is not the lines between the
    headers.  A line of the hook that names the outro with a marker starts
    the outro there, and the next header ends it: the outro returned is
    empty.  A header of the introduction that names the hook is skipped as
    a header of the hook, and the hook returned runs on through the
    introduction. *)
Lemma extract_section_exact_lines_counterexample :
  (well_formed (U := ascii_tables) five_response five_layout = true
   /\ _extract_section (U := ascii_tables) (VStr five_response)
        (VStr (lit "HOOK")) = lit "Grab them!"
   /\ lit "Grab them!" <> join [nl] hook_body
   /\ lit "Grab them!" <> strip (U := ascii_tables) (join [nl] hook_body))
  /\ (well_formed (U := ascii_tables) spaced_response spaced_layout = true
      /\ forallb (fun l => negb (has_marker l)) spaced_hook_body = true
      /\ _extract_section (U := ascii_tables) (VStr spaced_response)
           (VStr (lit "HOOK")) = lit "Grab them!"
      /\ join [nl] spaced_hook_body = nl :: lit "Grab them!" ++ [nl]
      /\ _extract_section (U := ascii_tables) (VStr spaced_response)
           (VStr (lit "HOOK")) <> join [nl] spaced_hook_body
      /\ _extract_section (U := ascii_tables) (VStr spaced_response)
           (VStr (lit "HOOK"))
         = strip (U := ascii_tables) (join [nl] spaced_hook_body))
  /\ (well_formed (U := ascii_tables) early_response early_layout = true
      /\ _extract_section (U := ascii_tables) (VStr early_response)
           (VStr (lit "OUTRO")) = []
      /\ strip (U := ascii_tables) (join [nl] [lit "Bye."]) = lit "Bye.")
  /\ (well_formed (U := ascii_tables) nested_response nested_layout = true
      /\ _extract_section (U := ascii_tables) (VStr nested_response)
           (VStr (lit "HOOK"))
         = lit "Grab them!" ++ nl :: lit "Hi, I am Sam."
      /\ strip (U := ascii_tables) (join [nl] [lit "Grab them!"])
         = lit "Grab them!").
Proof.
  split; [|split; [|split]].
  - split; [vm_compute; reflexivity|]. split; [vm_compute; reflexivity|].
    split; vm_compute; discriminate.
  - split; [vm_compute; reflexivity|]. split; [reflexivity|].
    split; [vm_compute; reflexivity|]. split; [reflexivity|].
    split; [vm_compute; discriminate|]. vm_compute. reflexivity.
  - split; [vm_compute; reflexivity|]. split; vm_compute; reflexivity.
  - split; [vm_compute; reflexivity|]. split; vm_compute; reflexivity.
Qed.

Lemma extract_section_bounded_witness :
  _extract_section (U := ascii_tables) (VStr five_response)
    (VStr (lit "MAIN CONTENT"))
  = lit "stuff" ++ [nl] ++ lit "and more stuff"
  /\ _extract_section (U := ascii_tables) (VStr five_response)
       (VStr (lit "MAIN CONTENT")) <> [].
Proof.
  pose proof (extract_section_bounded (U := ascii_tables)
    five_response (lit "MAIN CONTENT")
    [ lit "**HOOK**"; lit "Grab them!"; lit "**Main idea:** cats";
      lit "more"; lit "## Introduction"; lit "hi" ]
    (lit "**MAIN CONTENT**")
    [ lit "stuff"; lit "and more stuff" ]
    [ lit "**CALL TO ACTION**"; lit "subscribe"; lit "**OUTRO**"; lit "bye" ]
    eq_refl eq_refl eq_refl eq_refl eq_refl) as [H1 H2].
  split; [exact H1|exact (H2 eq_refl)].
Defined.

(** The handler of [_extract_section] is entered when the text is not a
    string: the completion service can answer without content. *)
Example extract_section_of_none :
  _extract_section (U := ascii_tables) VNone (VStr (lit "HOOK"))
  = section_not_found.
Proof. reflexivity. Qed.

(** ** The prompt *)

Section PromptClaims.

(** Walks the template to the piece that holds the text looked for. *)
Ltac find_in_prompt :=
  repeat first
    [ apply contains_here
    | apply contains_app_l; vm_compute; reflexivity
    | apply contains_app_r ].

Definition prompt_complete (topic prompt : str) : Prop :=
  contains topic prompt = true
  /\ Forall (fun label => contains label prompt = true) section_names.

(** C9. For every topic and every value of the four other parameters, the
    empty string included, [_build_prompt] returns a string that contains
    the topic and the five section labels; so does the prompt built with
    the default parameters. *)
Theorem build_prompt_complete :
  forall topic video_length style target_audience additional_requirements,
    prompt_complete topic
      (_build_prompt topic video_length style target_audience
         additional_requirements)
    /\ prompt_complete topic (prompt_of topic no_kwargs).
Proof.
  assert (G : forall topic vl st ta ar,
             prompt_complete topic (_build_prompt topic vl st ta ar)).
  { intros topic vl st ta ar. unfold prompt_complete, _build_prompt.
    split; [find_in_prompt|].
    unfold section_names. repeat apply Forall_cons; [..|apply Forall_nil];
      find_in_prompt. }
  intros topic vl st ta ar. split; [apply G|].
  unfold prompt_of. apply G.
Qed.

End PromptClaims.

(** ** The missing credential *)

Section CredentialClaims.
Context {U : Unicode}.

Definition missing_key_message : str :=
  lit "OpenAI API key is required. Set OPENAI_API_KEY environment variable or pass it directly.".

Lemma init_without_key (w : world) (st : state) :
  getenv_api_key w = None ->
  __init__ None w st = (Raise (ValueError missing_key_message), st).
Proof.
  intros H. unfold __init__, bind, os_getenv. cbn [truthy]. rewrite H.
  reflexivity.
Qed.

(** What [print] does on any stream. *)
Lemma print_fits {out : Stdout} (line : str) (w : world) (st : state) :
  fits line = true ->
  print line w st
  = (Ok tt, {| heap := heap st; stdout := stdout st ++ [line];
               files := files st; openai_api_key := openai_api_key st;
               chat_calls := chat_calls st; clock_reads := clock_reads st |}).
Proof.
  unfold fits, print. destruct (encode_error line); [discriminate|reflexivity].
Qed.

Lemma print_refused {out : Stdout} (line m : str) (w : world) (st : state) :
  encode_error line = Some m ->
  print line w st = (Raise (UnicodeEncodeError m), st).
Proof.
  intros H. unfold print. rewrite H. reflexivity.
Qed.

Lemma print_all_takes {out : Stdout} (lines : list str) (w : world)
  (st : state) :
  takes lines = true ->
  Cli.print_all lines w st
  = (Ok tt, {| heap := heap st; stdout := stdout st ++ lines;
               files := files st; openai_api_key := openai_api_key st;
               chat_calls := chat_calls st; clock_reads := clock_reads st |}).
Proof.
  revert st. induction lines as [|l lines IH]; intros st Ht.
  - cbn. rewrite app_nil_r. destruct st; reflexivity.
  - cbn [takes forallb] in Ht. apply andb_prop in Ht as [Hl Ht].
    cbn [Cli.print_all]. unfold bind. rewrite (print_fits l w st Hl).
    rewrite (IH _ Ht). cbn. rewrite <- app_assoc. reflexivity.
Qed.

(** The line that reports an error: a cross mark (U+274C), " Error: " and
    the message. *)
Definition error_report (message : str) : str :=
  10060%N :: lit " Error: " ++ message.

(** The steps of remediation as the command line shows them: a heading
    after an empty line and a key sign (U+1F511), then four lines. *)
Definition remediation_steps : list str :=
  [ 10%N :: 128273%N :: lit " To fix this:";
    lit "1. Get an OpenAI API key from https://platform.openai.com/api-keys";
    lit "2. Set it as an environment variable:";
    lit "   export OPENAI_API_KEY='your-key-here'";
    lit "3. Or create a .env file with your API key" ].

(** C7. Without a credential (no argument, no environment value) the
    constructor raises a [ValueError] whose message contains "API key" and
    [main] catches it.  On a standard output that takes the error line and
    the five lines of remediation, [main] prints them, makes no call of the
    service, and returns normally, leaving objects and files as they were.
    On a standard output that cannot encode the error line, the [print] of
    the handler raises [UnicodeEncodeError], and this exception leaves
    [main]; nothing was printed. *)
Theorem missing_credential_is_reported {out : Stdout} (a : Cli.args)
  (w : world) (st : state) :
  getenv_api_key w = None ->
  exists msg,
    __init__ None w st = (Raise (ValueError msg), st)
    /\ contains (lit "API key") msg = true
    /\ (takes (error_report msg :: remediation_steps) = true ->
        exists st',
          Cli.main a w st = (Ok tt, st')
          /\ stdout st' = stdout st ++ error_report msg :: remediation_steps
          /\ heap st' = heap st
          /\ files st' = files st
          /\ chat_calls st' = chat_calls st)
    /\ (forall m, encode_error (error_report msg) = Some m ->
          Cli.main a w st = (Raise (UnicodeEncodeError m), st)).
Proof.
  intros H. exists missing_key_message.
  split; [apply init_without_key, H|]. split; [reflexivity|].
  assert (E : Cli.main a w st
              = (print (error_report missing_key_message) ;;
                 Cli.print_all remediation_steps) w st).
  { unfold Cli.main, try_except, Cli.main_body.
    unfold bind at 1. rewrite (init_without_key w st H). reflexivity. }
  rewrite E. split.
  - intros Ht. cbn [takes forallb] in Ht. apply andb_prop in Ht as [H1 H2].
    unfold bind. rewrite (print_fits _ w st H1).
    rewrite (print_all_takes _ _ _ H2). eexists. split; [reflexivity|].
    cbn [stdout heap files chat_calls]. rewrite <- app_assoc.
    split; [reflexivity|]. split; [reflexivity|]. split; reflexivity.
  - intros m Hm. unfold bind. rewrite (print_refused _ m w st Hm).
    reflexivity.
Qed.

End CredentialClaims.

(** ** Persistence *)

Module SaveFacts.

Lemma file_get_put_same (fs : list (str * str)) (p c : str) :
  file_get (file_put fs p c) p = Some c.
Proof.
  induction fs as [|[q d] fs IH]; cbn [file_put file_get].
  - rewrite str_eqb_refl. reflexivity.
  - destruct (str_eqb q p) eqn:E; cbn [file_get]; rewrite E;
      [reflexivity | exact IH].
Qed.

Lemma file_get_put_other (fs : list (str * str)) (p q c : str) :
  p <> q -> file_get (file_put fs p c) q = file_get fs q.
Proof.
  intros N. induction fs as [|[r d] fs IH]; cbn [file_put file_get].
  - rewrite (str_eqb_neq p q N). reflexivity.
  - destruct (str_eqb r p) eqn:E; cbn [file_get].
    + apply str_eqb_eq in E. subst r. rewrite (str_eqb_neq p q N).
      reflexivity.
    + destruct (str_eqb r q); [reflexivity | exact IH].
Qed.

Lemma file_put_put_same (fs : list (str * str)) (p c d : str) :
  file_put (file_put fs p c) p d = file_put fs p d.
Proof.
  induction fs as [|[q e] fs IH]; cbn [file_put].
  - rewrite str_eqb_refl. reflexivity.
  - destruct (str_eqb q p) eqn:E; cbn [file_put]; rewrite E;
      [reflexivity | rewrite IH; reflexivity].
Qed.

(** The state with other files. *)
Definition with_files (st : state) (fs : list (str * str)) : state :=
  {| heap := heap st; stdout := stdout st; files := fs;
     openai_api_key := openai_api_key st;
     chat_calls := chat_calls st; clock_reads := clock_reads st |}.


(** The content of the text file, header first. *)
Definition text_content (topic generated_at : value) (full_script : str)
  : str :=
  (lit "YouTube Video Script: " ++ format_value topic ++ [nl])
  ++ (lit "Generated: " ++ format_value generated_at ++ [nl])
  ++ (repeat_str (lit "=") 50 ++ [nl; nl])
  ++ full_script.

(** Writing a record to a given file name. *)
Definition write_both (st : state) (r : ref) (name : str)
  (topic generated_at : value) (full_script : str) : state :=
  with_files st
    (file_put (file_put (files st) name (json_dumps (deref st r)))
       (text_filename_of name) (text_content topic generated_at full_script)).

Section Save.
Context {U : Unicode}.

Lemma write_both_spec (r : ref) (name : str) (w : world) (st : state)
  (topic generated_at : value) (full_script : str) :
  dict_get (deref st r) (lit "topic") = Some topic ->
  dict_get (deref st r) (lit "generated_at") = Some generated_at ->
  dict_get (deref st r) (lit "full_script") = Some (VStr full_script) ->
  open_error w name = None ->
  open_error w (text_filename_of name) = None ->
  (open_w name ;;
   d <- read_dict r ;;
   file_write name (VStr (json_dumps d)) ;;
   let text_filename := text_filename_of name in
   open_w text_filename ;;
   topic <- getitem_ref r (lit "topic") ;;
   file_write text_filename
     (VStr (lit "YouTube Video Script: " ++ format_value topic ++ [nl])) ;;
   generated_at <- getitem_ref r (lit "generated_at") ;;
   file_write text_filename
     (VStr (lit "Generated: " ++ format_value generated_at ++ [nl])) ;;
   file_write text_filename (VStr (repeat_str (lit "=") 50 ++ [nl; nl])) ;;
   full_script <- getitem_ref r (lit "full_script") ;;
   file_write text_filename full_script ;;
   ret name) w st
  = (Ok name, write_both st r name topic generated_at full_script).
Proof.
  intros Ht Hg Hf Ho Ho'.
  unfold bind, open_w, read_dict, file_write, getitem_ref, set_files, ret,
    getitem.
  rewrite Ho, Ho'.
  cbn [files heap stdout openai_api_key chat_calls clock_reads].
  change (deref _ r) with (deref st r).
  rewrite Ht, Hg, Hf.
  repeat (rewrite !file_get_put_same || rewrite !file_put_put_same).
  cbn [app]. unfold write_both, with_files, text_content.
  rewrite <- !app_assoc. reflexivity.
Qed.

(** [save_script] on a record that has its topic, its time stamp and a
    script that is a string: the name is the one given, or is derived from
    the topic and the clock; both files are written; the name is returned. *)
Lemma save_script_given (r : ref) (c : cp) (name : str) (w : world)
  (st : state) (topic generated_at : value) (full_script : str) :
  dict_get (deref st r) (lit "topic") = Some topic ->
  dict_get (deref st r) (lit "generated_at") = Some generated_at ->
  dict_get (deref st r) (lit "full_script") = Some (VStr full_script) ->
  open_error w (c :: name) = None ->
  open_error w (text_filename_of (c :: name)) = None ->
  save_script r (Some (c :: name)) w st
  = (Ok (c :: name),
     write_both st r (c :: name) topic generated_at full_script).
Proof.
  intros Ht Hg Hf Ho Ho'. unfold save_script. cbn [truthy default].
  unfold bind at 1. unfold ret at 1.
  apply (write_both_spec r (c :: name) w st topic generated_at full_script
           Ht Hg Hf Ho Ho').
Qed.


End Save.
End SaveFacts.
Import SaveFacts.

(** ** File names *)

Section FilenameClaims.
Context {U : Unicode}.

Definition spaces_to_underscores (s : str) : str :=
  map (fun c => if N.eqb c 32 then 95%N else c) s.

(** A character the specification keeps: alphanumeric, a space (32), a
    hyphen (45) or an underscore (95). *)
Definition allowed_in_topic (c : cp) : bool :=
  isalnum c || N.eqb c 32 || N.eqb c 45 || N.eqb c 95.


(** The derivation in the words of the specification: the characters that
    are not alphanumeric, space, hyphen or underscore removed, the spaces
    replaced, time stamp and extension appended. *)
Definition derived_filename_spec (topic timestamp : str) : str :=
  lit "script_" ++ spaces_to_underscores (filter allowed_in_topic topic)
  ++ lit "_" ++ timestamp ++ lit ".json".

(** The derivation as amended: the white space at the end of the filtered
    topic is stripped before the spaces are replaced. *)
Definition derived_filename_stripped (topic timestamp : str) : str :=
  lit "script_"
  ++ spaces_to_underscores (rstrip (filter allowed_in_topic topic))
  ++ lit "_" ++ timestamp ++ lit ".json".

Lemma derived_filename_eq (topic timestamp : str) :
  derived_filename topic timestamp
  = derived_filename_stripped topic timestamp.
Proof.
  unfold derived_filename, safe_topic. rewrite replace_char. reflexivity.
Qed.





(** Where the filtered topic does not end in white space, the name is the
    one the specification describes. *)
Lemma derived_filename_meets_spec (topic timestamp : str) :
  (forall t c, filter allowed_in_topic topic = t ++ [c] ->
               isspace c = false) ->
  derived_filename topic timestamp = derived_filename_spec topic timestamp.
Proof.
  intros H. rewrite derived_filename_eq. unfold derived_filename_stripped.
  rewrite (rstrip_id _ H). reflexivity.
Qed.

End FilenameClaims.

(** ** Variation file names (generate_script.py) *)

Definition dot : cp := 46%N.

(** What [replace] does with one character of the base name. *)
Definition mark_dot (i : nat) (c : cp) : str :=
  if N.eqb c dot then lit "_v" ++ str_of_nat i ++ lit "." else [c].

Lemma variation_filename_flat_map (output : str) (i : nat) :
  Cli.variation_filename output i = flat_map (mark_dot i) output.
Proof. unfold Cli.variation_filename. apply (replace_single dot). Qed.

Lemma mark_dot_id (i : nat) (s : str) :
  forallb (fun c => negb (N.eqb c dot)) s = true ->
  flat_map (mark_dot i) s = s.
Proof.
  induction s as [|c s IH]; [reflexivity|]. cbn [forallb flat_map].
  rewrite andb_true_iff, negb_true_iff. intros [Hc H].
  unfold mark_dot at 1. rewrite Hc, (IH H). reflexivity.
Qed.

(** With a single dot in the base name the marker sits before the
    extension. *)
Lemma variation_filename_single_dot (stem ext : str) (i : nat) :
  forallb (fun c => negb (N.eqb c dot)) (stem ++ ext) = true ->
  Cli.variation_filename (stem ++ lit "." ++ ext) i
  = stem ++ lit "_v" ++ str_of_nat i ++ lit "." ++ ext.
Proof.
  rewrite forallb_app, andb_true_iff. intros [Hs He].
  rewrite variation_filename_flat_map, !flat_map_app.
  rewrite (mark_dot_id i stem Hs), (mark_dot_id i ext He).
  cbn [flat_map lit list_ascii_of_string map].
  change (mark_dot i (N_of_ascii "."%char))
    with (lit "_v" ++ str_of_nat i ++ lit ".").
  rewrite app_nil_r, <- !app_assoc. reflexivity.
Qed.

(** C4 (as the code behaves). [replace] rewrites every dot of the base
    name: a name with two dots gets the marker twice, and a name without a
    dot gets none. *)
Theorem variation_filename_marks_every_dot :
  (forall output i,
      Cli.variation_filename output i = flat_map (mark_dot i) output)
  /\ Cli.variation_filename (lit "my.script.json") 1
     = lit "my_v1.script_v1.json"
  /\ Cli.variation_filename (lit "my.script.json") 1
     <> lit "my.script_v1.json"
  /\ Cli.variation_filename (lit "./out.json") 2 = lit "_v2./out_v2.json"
  /\ Cli.variation_filename (lit "script") 2 = lit "script".
Proof.
  split; [exact variation_filename_flat_map|].
  split; [reflexivity|]. split; [vm_compute; discriminate|].
  split; reflexivity.
Qed.

(** ** Batch generation *)

Module BatchFacts.

Lemma list_update_last {A} (h : list A) (d x : A) :
  list_update (h ++ [d]) (length h) x = h ++ [x].
Proof. induction h as [|a h IH]; cbn; [|rewrite IH]; reflexivity. Qed.

Lemma nth_last {A} (h : list A) (d e : A) : nth (length h) (h ++ [d]) e = d.
Proof. induction h as [|a h IH]; cbn; [reflexivity|exact IH]. Qed.


Lemma dict_get_set_other (d : dict) (k k' : str) (v : value) :
  k' <> k -> dict_get (dict_set d k v) k' = dict_get d k'.
Proof.
  intros N. induction d as [|[q u] d IH]; cbn [dict_set dict_get].
  - rewrite str_eqb_neq by congruence. reflexivity.
  - destruct (str_eqb q k) eqn:E; cbn [dict_get].
    + apply str_eqb_eq in E. subst q.
      rewrite (str_eqb_neq k k') by congruence. reflexivity.
    + destruct (str_eqb q k'); [reflexivity|exact IH].
Qed.

Section Batch.
Context {U : Unicode}.
Variable w : world.
Variable topic : str.
Variable kw : kwargs.

(** The record of a successful attempt [i], read at clock reading [t]. *)
Definition variation_record (i t : nat) (content : value) : dict :=
  dict_set (script_record topic (isoformat (clock w t)) content)
    (lit "variation") (VInt (Z.of_nat i + 1)).

(** The line printed for a failed attempt [i]. *)
Definition error_line (i : nat) (msg : str) : str :=
  lit "Error generating variation " ++ str_of_Z (Z.of_nat i + 1) ++ lit ": "
  ++ lit "Error generating script: " ++ msg.

Definition attempt (c : nat) : str + value :=
  chat_completion w c (prompt_of topic kw).

Lemma generate_script_ok (st : state) (content : value) :
  attempt (chat_calls st) = inr content ->
  generate_script topic kw w st
  = (Ok (length (heap st)),
     {| heap := heap st
                ++ [script_record topic
                      (isoformat (clock w (clock_reads st))) content];
        stdout := stdout st; files := files st;
        openai_api_key := openai_api_key st;
        chat_calls := S (chat_calls st);
        clock_reads := S (clock_reads st) |}).
Proof.
  unfold attempt. intros H.
  unfold generate_script, try_except, bind, chat_create.
  rewrite H. reflexivity.
Qed.

Lemma generate_script_fail (st : state) (msg : str) :
  attempt (chat_calls st) = inl msg ->
  generate_script topic kw w st
  = (Raise (Exception (lit "Error generating script: " ++ msg)),
     {| heap := heap st; stdout := stdout st; files := files st;
        openai_api_key := openai_api_key st;
        chat_calls := S (chat_calls st);
        clock_reads := clock_reads st |}).
Proof.
  unfold attempt. intros H.
  unfold generate_script, try_except, bind, chat_create.
  rewrite H. reflexivity.
Qed.

Lemma variation_step_ok (i : nat) (vs : list ref) (st : state)
  (content : value) :
  attempt (chat_calls st) = inr content ->
  variation_step topic kw i vs w st
  = (Ok (vs ++ [length (heap st)]),
     {| heap := heap st ++ [variation_record i (clock_reads st) content];
        stdout := stdout st; files := files st;
        openai_api_key := openai_api_key st;
        chat_calls := S (chat_calls st);
        clock_reads := S (clock_reads st) |}).
Proof.
  intros H. unfold variation_step, try_except. unfold bind at 1.
  rewrite (generate_script_ok st content H).
  unfold bind, setitem, ret, deref.
  cbn [heap stdout files openai_api_key chat_calls clock_reads].
  rewrite nth_last, list_update_last. reflexivity.
Qed.

Lemma variation_step_fail (i : nat) (vs : list ref) (st : state) (msg : str) :
  attempt (chat_calls st) = inl msg ->
  variation_step topic kw i vs w st
  = (Ok vs,
     {| heap := heap st; stdout := stdout st ++ [error_line i msg];
        files := files st; openai_api_key := openai_api_key st;
        chat_calls := S (chat_calls st);
        clock_reads := clock_reads st |}).
Proof.
  intros H. unfold variation_step, try_except. unfold bind at 1.
  rewrite (generate_script_fail st msg H).
  unfold bind, print, ret. reflexivity.
Qed.

(** The records and the lines a run of the loop adds, from the call
    number [c] and the clock reading [t] on. *)
Fixpoint batch_records (indices : list nat) (c t : nat) : list dict :=
  match indices with
  | [] => []
  | i :: rest =>
      match attempt c with
      | inr content =>
          variation_record i t content :: batch_records rest (S c) (S t)
      | inl _ => batch_records rest (S c) t
      end
  end.

Fixpoint batch_errors (indices : list nat) (c : nat) : list str :=
  match indices with
  | [] => []
  | i :: rest =>
      match attempt c with
      | inr _ => batch_errors rest (S c)
      | inl msg => error_line i msg :: batch_errors rest (S c)
      end
  end.

(** The loop never raises; it appends the records of the attempts that
    succeeded to the heap and prints a line for each that failed. *)
Lemma variations_loop_spec (indices : list nat) :
  forall (vs : list ref) (st : state),
    exists st',
      variations_loop topic kw indices vs w st
      = (Ok (vs ++ seq (length (heap st))
                     (length (batch_records indices (chat_calls st)
                                (clock_reads st)))), st')
      /\ heap st'
         = heap st ++ batch_records indices (chat_calls st) (clock_reads st)
      /\ stdout st' = stdout st ++ batch_errors indices (chat_calls st)
      /\ files st' = files st.
Proof.
  induction indices as [|i rest IH]; intros vs st.
  - exists st. cbn. rewrite !app_nil_r. repeat split.
  - cbn [variations_loop batch_records batch_errors]. unfold bind.
    destruct (attempt (chat_calls st)) as [msg|content] eqn:E.
    + rewrite (variation_step_fail i vs st msg E).
      match goal with |- context [variations_loop _ _ _ _ _ ?s] =>
        destruct (IH vs s) as [st' [Hr [Hh [Ho Hf]]]] end.
      cbn [heap stdout files chat_calls clock_reads] in Hr, Hh, Ho, Hf.
      exists st'. rewrite Hr, Hh, Ho, Hf, <- app_assoc. repeat split.
    + rewrite (variation_step_ok i vs st content E).
      match goal with |- context [variations_loop _ _ _ ?v _ ?s] =>
        destruct (IH v s) as [st' [Hr [Hh [Ho Hf]]]] end.
      cbn [heap stdout files chat_calls clock_reads] in Hr, Hh, Ho, Hf.
      exists st'. rewrite Hr, Hh, Ho, Hf, <- !app_assoc.
      rewrite length_app, Nat.add_comm. cbn [length Nat.add seq app].
      repeat split.
Qed.








(** Every record of the batch is a record as [_parse_script_response]
    assembles it, with the variation index set. *)
Lemma batch_records_shape (indices : list nat) :
  forall c t d,
    In d (batch_records indices c t) ->
    exists i t' content, d = variation_record i t' content.
Proof.
  induction indices as [|i rest IH]; intros c t d; cbn [batch_records].
  - intros [].
  - destruct (attempt c) as [msg|content].
    + apply IH.
    + intros [<-|H]; [exists i, t, content; reflexivity|].
      exact (IH _ _ _ H).
Qed.

End Batch.
End BatchFacts.
Import BatchFacts.

Section BatchClaims.
Context {U : Unicode}.




Lemma deref_kept (st : state) (h recs : list dict) (r : ref) :
  heap st = h ++ recs -> r < length h -> deref st r = nth r h [].
Proof.
  intros Hh Hr. unfold deref. rewrite Hh. apply app_nth1, Hr.
Qed.


(** The whole call, by the records and the lines of the loop. *)
Lemma generate_multiple_variations_spec (w : world) (topic : str)
  (kw : kwargs) (count : Z) (st : state) :
  let recs := batch_records w topic kw (seq 0 (Z.to_nat count))
                (chat_calls st) (clock_reads st) in
  exists st',
    generate_multiple_variations topic count kw w st
    = (Ok (seq (length (heap st)) (length recs)), st')
    /\ heap st' = heap st ++ recs
    /\ stdout st'
       = stdout st
         ++ batch_errors w topic kw (seq 0 (Z.to_nat count)) (chat_calls st)
    /\ files st' = files st.
Proof.
  intros recs. unfold generate_multiple_variations.
  destruct (variations_loop_spec w topic kw (seq 0 (Z.to_nat count)) [] st)
    as [st' H].
  exists st'. exact H.
Qed.


(** [save_script] and the heap. *)
Definition keeps_heap {A} (c : M A) : Prop :=
  forall w st, heap (snd (c w st)) = heap st.

Lemma keeps_heap_ret {A} (a : A) : keeps_heap (ret a).
Proof. intros w st. reflexivity. Qed.

Lemma keeps_heap_lift {A} (r : result A) : keeps_heap (lift r).
Proof. intros w st. reflexivity. Qed.

Lemma keeps_heap_bind {A B} (c : M A) (k : A -> M B) :
  keeps_heap c -> (forall a, keeps_heap (k a)) -> keeps_heap (bind c k).
Proof.
  intros Hc Hk w st. unfold bind. specialize (Hc w st).
  destruct (c w st) as [[a|e] st1]; cbn [snd] in *.
  - rewrite (Hk a w st1). exact Hc.
  - exact Hc.
Qed.

Lemma keeps_heap_datetime_now : keeps_heap datetime_now.
Proof. intros w st. reflexivity. Qed.

Lemma keeps_heap_getitem_ref (r : ref) (k : str) : keeps_heap (getitem_ref r k).
Proof. intros w st. reflexivity. Qed.

Lemma keeps_heap_read_dict (r : ref) : keeps_heap (read_dict r).
Proof. intros w st. reflexivity. Qed.

Lemma keeps_heap_open_w (p : str) : keeps_heap (open_w p).
Proof.
  intros w st. unfold open_w. destruct (open_error w p); reflexivity.
Qed.

Lemma keeps_heap_file_write (p : str) (v : value) : keeps_heap (file_write p v).
Proof. intros w st. destruct v; reflexivity. Qed.

Create HintDb keeps_heap.
#[local] Hint Resolve keeps_heap_ret keeps_heap_lift keeps_heap_datetime_now
  keeps_heap_getitem_ref keeps_heap_read_dict keeps_heap_open_w
  keeps_heap_file_write : keeps_heap.

Ltac keeps_heap_steps :=
  repeat first
    [ solve [auto with keeps_heap]
    | apply keeps_heap_bind; [|intros ?] ].

Lemma save_script_keeps_heap (r : ref) (filename : option str) :
  keeps_heap (save_script r filename).
Proof.
  unfold save_script. apply keeps_heap_bind.
  - destruct (truthy filename); keeps_heap_steps.
  - intros name. keeps_heap_steps.
Qed.

End BatchClaims.

(** ** Records after their creation *)

Section RecordClaims.
Context {U : Unicode}.

(** The loop over two runs of indices is the loop over the first, then
    over the second. *)
Lemma variations_loop_app (w : world) (topic : str) (kw : kwargs)
  (l1 l2 : list nat) :
  forall (vs : list ref) (st : state),
    variations_loop topic kw (l1 ++ l2) vs w st
    = bind (variations_loop topic kw l1 vs) (variations_loop topic kw l2)
        w st.
Proof.
  induction l1 as [|i l1 IH]; intros vs st; [reflexivity|].
  cbn [app variations_loop]. unfold bind.
  destruct (variation_step topic kw i vs w st) as [[v|e] s]; [|reflexivity].
  rewrite IH. unfold bind. reflexivity.
Qed.

(** C8 (amended). [save_script] changes no object.  A call of
    [generate_multiple_variations] leaves the objects that existed before
    it as they were.  The record that [generate_script] returns at a turn
    of the loop does not have the field "variation"; at the end of the
    call the same object is that record with the field "variation" added,
    set to the number of the turn, and every other field has the value it
    was created with; the object is among those returned. *)
Theorem records_change_by_variation_only :
  forall (w : world) (st : state) (topic : str) (kw : kwargs) (count : Z)
         (r : ref) (filename : option str),
    heap (snd (save_script r filename w st)) = heap st
    /\ (forall r', r' < length (heap st) ->
          deref (snd (generate_multiple_variations topic count kw w st)) r'
          = deref st r')
    /\ forall (before : list nat) (i : nat) (after : list nat)
              (created : ref) (st1 : state),
         seq 0 (Z.to_nat count) = before ++ i :: after ->
         generate_script topic kw w
           (snd (variations_loop topic kw before [] w st))
         = (Ok created, st1) ->
         let final :=
           snd (generate_multiple_variations topic count kw w st) in
         dict_get (deref st1 created) (lit "variation") = None
         /\ deref final created
            = dict_set (deref st1 created) (lit "variation")
                (VInt (Z.of_nat i + 1))
         /\ (forall key, key <> lit "variation" ->
               dict_get (deref final created) key
               = dict_get (deref st1 created) key)
         /\ exists refs,
              fst (generate_multiple_variations topic count kw w st)
              = Ok refs
              /\ In created refs.
Proof.
  intros w st topic kw count r filename.
  split; [apply save_script_keeps_heap|]. split.
  { intros r' Hr'.
    destruct (generate_multiple_variations_spec w topic kw count st)
      as [st' [Hr [Hh _]]].
    rewrite Hr. cbn [snd]. rewrite (deref_kept st' _ _ r' Hh Hr').
    reflexivity. }
  intros before i after created st1 Hsplit Hgen. cbv zeta.
  destruct (variations_loop_spec w topic kw before [] st)
    as [s1 [Hr1 _]].
  rewrite Hr1 in Hgen. cbn [snd] in Hgen.
  destruct (attempt w topic kw (chat_calls s1)) as [msg|content] eqn:E.
  { rewrite (generate_script_fail w topic kw s1 msg E) in Hgen.
    discriminate Hgen. }
  rewrite (generate_script_ok w topic kw s1 content E) in Hgen.
  injection Hgen as <- <-.
  match type of Hr1 with _ = (Ok ?vs, _) =>
    pose proof (variation_step_ok w topic kw i vs s1 content E) as Hstep
  end.
  match type of Hstep with _ = (Ok ?v, ?s) =>
    destruct (variations_loop_spec w topic kw after v s)
      as [s3 [Hr3 [Hh3 _]]]
  end.
  cbn [heap] in Hh3.
  match type of Hr3 with _ = (Ok ?refs, _) =>
    assert (Hrun : generate_multiple_variations topic count kw w st
                   = (Ok refs, s3))
  end.
  { unfold generate_multiple_variations.
    rewrite Hsplit, variations_loop_app. unfold bind at 1. rewrite Hr1.
    cbn [variations_loop]. unfold bind at 1. rewrite Hstep. exact Hr3. }
  rewrite Hrun. cbn [fst snd]. clear Hrun Hr3 Hstep Hr1.
  assert (Hnew : deref s3 (length (heap s1))
                 = variation_record w topic i (clock_reads s1) content).
  { rewrite (deref_kept s3 _ _ (length (heap s1)) Hh3)
      by (rewrite length_app; cbn [length]; lia).
    apply nth_last. }
  assert (Hold : deref
                   {| heap := heap s1
                              ++ [script_record topic
                                    (isoformat (clock w (clock_reads s1)))
                                    content];
                      stdout := stdout s1; files := files s1;
                      openai_api_key := openai_api_key s1;
                      chat_calls := S (chat_calls s1);
                      clock_reads := S (clock_reads s1) |}
                   (length (heap s1))
                 = script_record topic
                     (isoformat (clock w (clock_reads s1))) content).
  { unfold deref. cbn [heap]. apply nth_last. }
  rewrite Hnew, Hold. unfold variation_record.
  split; [reflexivity|]. split; [reflexivity|]. split.
  - intros key Hkey. apply dict_get_set_other. exact Hkey.
  - eexists. split; [reflexivity|].
    apply in_or_app. left. apply in_or_app. right. left. reflexivity.
Qed.

(** The text file never holds what the structured file holds. *)
Lemma text_is_not_json (topic generated_at : value) (full_script : str)
  (d : dict) :
  text_content topic generated_at full_script <> json_dumps d.
Proof.
  unfold text_content, json_dumps. destruct d; cbn; discriminate.
Qed.

(** With a file name given that cannot be opened, [save_script] raises the
    error of [open] and changes nothing. *)
Lemma save_script_given_unopenable (r : ref) (c : cp) (name : str)
  (w : world) (st : state) (msg : str) :
  open_error w (c :: name) = Some msg ->
  save_script r (Some (c :: name)) w st = (Raise (OSError msg), st).
Proof.
  intros Ho. unfold save_script. cbn [truthy default].
  unfold bind at 1. unfold ret at 1. unfold bind at 1. unfold open_w at 1.
  rewrite Ho. reflexivity.
Qed.

(** C5 (as the code behaves). When the given file name holds no ".json",
    the name of the text file is the name itself: where the name can be
    opened, [save_script] writes the text over the structured data, so that
    one file remains, with the text; no other file is touched and the name
    is returned.  Where the name cannot be opened the error of [open] is
    raised and nothing is written. *)
Theorem save_script_text_replaces_json :
  forall (r : ref) (c : cp) (name : str) (w : world) (st : state)
         (topic generated_at : value) (full_script : str),
    dict_get (deref st r) (lit "topic") = Some topic ->
    dict_get (deref st r) (lit "generated_at") = Some generated_at ->
    dict_get (deref st r) (lit "full_script") = Some (VStr full_script) ->
    text_filename_of (c :: name) = c :: name ->
    (open_error w (c :: name) = None ->
     exists st',
       save_script r (Some (c :: name)) w st = (Ok (c :: name), st')
       /\ file_get (files st') (c :: name)
          = Some (text_content topic generated_at full_script)
       /\ file_get (files st') (c :: name) <> Some (json_dumps (deref st r))
       /\ forall p, p <> c :: name ->
            file_get (files st') p = file_get (files st) p)
    /\ (forall msg, open_error w (c :: name) = Some msg ->
          save_script r (Some (c :: name)) w st = (Raise (OSError msg), st)).
Proof.
  intros r c name w st topic gen full Ht Hg Hf Hsame.
  split; [|intros msg Ho; exact (save_script_given_unopenable r c name w st
                                   msg Ho)].
  intros Ho.
  rewrite (save_script_given r c name w st topic gen full Ht Hg Hf Ho
             ltac:(rewrite Hsame; exact Ho)).
  eexists. split; [reflexivity|].
  unfold write_both, with_files. cbn [files]. rewrite Hsame.
  rewrite file_put_put_same, file_get_put_same.
  split; [reflexivity|]. split.
  - intros E. injection E as E. exact (text_is_not_json _ _ _ _ E).
  - intros p Hp. apply file_get_put_other. congruence.
Qed.

(** Where the two names differ, both files are there. *)
Lemma save_script_two_files (r : ref) (c : cp) (name : str) (w : world)
  (st : state) (topic generated_at : value) (full_script : str) :
  dict_get (deref st r) (lit "topic") = Some topic ->
  dict_get (deref st r) (lit "generated_at") = Some generated_at ->
  dict_get (deref st r) (lit "full_script") = Some (VStr full_script) ->
  text_filename_of (c :: name) <> c :: name ->
  open_error w (c :: name) = None ->
  open_error w (text_filename_of (c :: name)) = None ->
  exists st',
    save_script r (Some (c :: name)) w st = (Ok (c :: name), st')
    /\ file_get (files st') (c :: name) = Some (json_dumps (deref st r))
    /\ file_get (files st') (text_filename_of (c :: name))
       = Some (text_content topic generated_at full_script).
Proof.
  intros Ht Hg Hf Hdiff Ho Ho'.
  rewrite (save_script_given r c name w st topic generated_at full_script
             Ht Hg Hf Ho Ho').
  eexists. split; [reflexivity|].
  unfold write_both, with_files. cbn [files]. split.
  - rewrite file_get_put_other by exact Hdiff. apply file_get_put_same.
  - apply file_get_put_same.
Qed.

End RecordClaims.

(** ** The name of the text file *)



(** ** Sample runs *)

Definition sample_clock (k : nat) : datetime :=
  {| isoformat := lit "2024-01-01T12:00:0" ++ str_of_nat k;
     strftime_compact := lit "20240101_12000" ++ str_of_nat k |}.

(** A service that always answers. *)
Definition world_ok : world :=
  {| getenv_api_key := Some (lit "sk-test");
     chat_completion := fun _ _ => inr (VStr five_response);
     clock := sample_clock;
     open_error := fun _ => None |}.

(** A service whose second call fails. *)
Definition world_second_fails : world :=
  {| getenv_api_key := Some (lit "sk-test");
     chat_completion :=
       fun k _ => if Nat.eqb k 1 then inl (lit "quota exceeded")
                  else inr (VStr five_response);
     clock := sample_clock;
     open_error := fun _ => None |}.

(** No credential in the environment. *)
Definition world_no_key : world :=
  {| getenv_api_key := None;
     chat_completion := fun _ _ => inr (VStr five_response);
     clock := sample_clock;
     open_error := fun _ => None |}.

Definition empty_state : state :=
  {| heap := []; stdout := []; files := []; openai_api_key := None;
     chat_calls := 0; clock_reads := 0 |}.

Definition cats : str := lit "Cats :)".

(** A state that holds one record, for the topic "Cats :)". *)
Definition one_record : state :=
  {| heap := [script_record (U := ascii_tables) cats
                (lit "2024-01-01T12:00:00") (VStr five_response)];
     stdout := []; files := []; openai_api_key := Some (lit "sk-test");
     chat_calls := 1; clock_reads := 1 |}.

Definition sample_args (n : Z) (out : option str) : Cli.args :=
  {| Cli.topic := cats; Cli.length_ := lit "5-10 minutes";
     Cli.style_ := lit "educational"; Cli.audience := lit "general";
     Cli.requirements := []; Cli.variations := n; Cli.output := out |}.


Lemma missing_credential_is_reported_witness :
  exists msg,
    __init__ None world_no_key empty_state
    = (Raise (ValueError msg), empty_state)
    /\ contains (lit "API key") msg = true
    /\ exists st',
         Cli.main (U := ascii_tables) (out := text_stream)
           (sample_args 1 None) world_no_key empty_state = (Ok tt, st')
         /\ stdout st'
            = stdout empty_state ++ error_report msg :: remediation_steps
         /\ heap st' = heap empty_state
         /\ files st' = files empty_state
         /\ chat_calls st' = chat_calls empty_state.
Proof.
  destruct (missing_credential_is_reported (U := ascii_tables)
              (out := text_stream) (sample_args 1 None) world_no_key
              empty_state eq_refl) as [msg [H1 [H2 [H3 _]]]].
  exists msg. split; [exact H1|]. split; [exact H2|]. exact (H3 eq_refl).
Defined.

(** With no credential and a standard output of encoding 'ascii', [main]
    ends with the [UnicodeEncodeError] of the handler's first [print]: the
    error line starts with U+274C.  Nothing is printed. *)
Lemma missing_credential_counterexample :
  getenv_api_key world_no_key = None
  /\ Cli.main (U := ascii_tables) (out := ascii_stream) (sample_args 1 None)
       world_no_key empty_state
     = (Raise (UnicodeEncodeError
                 (lit "'ascii' codec can't encode character '"
                  ++ backslash
                  :: lit "u274c' in position 0: ordinal not in range(128)")),
        empty_state).
Proof.
  split; [reflexivity | vm_compute; reflexivity].
Qed.



(** A file system that refuses every file. *)
Definition world_no_write : world :=
  {| getenv_api_key := Some (lit "sk-test");
     chat_completion := fun _ _ => inr (VStr five_response);
     clock := sample_clock;
     open_error :=
       fun path => Some (lit "[Errno 13] Permission denied: '" ++ path
                         ++ lit "'") |}.



Lemma save_script_text_replaces_json_witness :
  (exists st',
      save_script (U := ascii_tables) 0 (Some (lit "out.dat")) world_ok
        one_record = (Ok (lit "out.dat"), st')
      /\ file_get (files st') (lit "out.dat")
         = Some (text_content (VStr cats) (VStr (lit "2024-01-01T12:00:00"))
                   five_response)
      /\ file_get (files st') (lit "out.dat")
         <> Some (json_dumps (deref one_record 0))
      /\ forall p, p <> lit "out.dat" ->
           file_get (files st') p = file_get (files one_record) p)
  /\ save_script (U := ascii_tables) 0 (Some (lit "out.dat")) world_no_write
       one_record
     = (Raise (OSError (lit "[Errno 13] Permission denied: 'out.dat'")),
        one_record).
Proof.
  split.
  - exact (proj1 (save_script_text_replaces_json (U := ascii_tables) 0
                    (N_of_ascii "o"%char) (lit "ut.dat") world_ok one_record
                    (VStr cats) (VStr (lit "2024-01-01T12:00:00"))
                    five_response eq_refl eq_refl eq_refl eq_refl)
             eq_refl).
  - exact (proj2 (save_script_text_replaces_json (U := ascii_tables) 0
                    (N_of_ascii "o"%char) (lit "ut.dat") world_no_write
                    one_record (VStr cats)
                    (VStr (lit "2024-01-01T12:00:00")) five_response
                    eq_refl eq_refl eq_refl eq_refl)
             _ eq_refl).
Defined.

(** The single file left by that run. *)
Example save_script_out_dat_files :
  map fst (files (snd (save_script (U := ascii_tables) 0
                         (Some (lit "out.dat")) world_ok one_record)))
  = [lit "out.dat"].
Proof. reflexivity. Qed.

Lemma records_change_by_variation_only_witness :
  let created_at :=
    snd (generate_script (U := ascii_tables) cats no_kwargs world_ok
           one_record) in
  let final :=
    snd (generate_multiple_variations (U := ascii_tables) cats 2 no_kwargs
           world_ok one_record) in
  heap (snd (save_script (U := ascii_tables) 0 None world_ok one_record))
  = heap one_record
  /\ deref final 0 = deref one_record 0
  /\ dict_get (deref created_at 1) (lit "variation") = None
  /\ deref final 1
     = dict_set (deref created_at 1) (lit "variation") (VInt 1)
  /\ (forall key, key <> lit "variation" ->
        dict_get (deref final 1) key = dict_get (deref created_at 1) key)
  /\ exists refs,
       fst (generate_multiple_variations (U := ascii_tables) cats 2
              no_kwargs world_ok one_record) = Ok refs
       /\ In 1 refs.
Proof.
  destruct (records_change_by_variation_only (U := ascii_tables) world_ok
              one_record cats no_kwargs 2 0 None)
    as [Hsave [Hold Hnew]].
  cbv zeta. split; [exact Hsave|].
  split; [apply Hold; cbn; lia|].
  exact (Hnew [] 0 [1] 1
           (snd (generate_script (U := ascii_tables) cats no_kwargs world_ok
                   one_record))
           eq_refl eq_refl).
Defined.

(** C8 fails as stated: the record that [generate_script] returns has
    eight fields; the same object, after the batch that made it, has a
    ninth. *)
Lemma record_immutable_counterexample :
  let created :=
    snd (generate_script (U := ascii_tables) cats no_kwargs world_ok
           empty_state) in
  let after :=
    snd (generate_multiple_variations (U := ascii_tables) cats 2 no_kwargs
           world_ok empty_state) in
  fst (generate_script (U := ascii_tables) cats no_kwargs world_ok
         empty_state) = Ok 0
  /\ fst (generate_multiple_variations (U := ascii_tables) cats 2 no_kwargs
            world_ok empty_state) = Ok [0; 1]
  /\ length (dict_keys (deref created 0)) = 8
  /\ dict_get (deref created 0) (lit "variation") = None
  /\ dict_get (deref after 0) (lit "variation") = Some (VInt 1)
  /\ deref after 0 <> deref created 0.
Proof.
  cbv zeta. split; [reflexivity|]. split; [reflexivity|].
  split; [reflexivity|]. split; [reflexivity|]. split; [reflexivity|].
  intros E. apply (f_equal (fun d => dict_get d (lit "variation"))) in E.
  vm_compute in E. discriminate.
Qed.

(** After a failed attempt the command line numbers the files by the place
    of the record in the result, not by its variation index: the record of
    the third attempt is saved under the marker 2. *)
Example cli_numbers_by_position :
  let st := snd (Cli.main (U := ascii_tables)
                   (sample_args 3 (Some (lit "out.json")))
                   world_second_fails empty_state) in
  map fst (files st)
  = [lit "out_v1.json"; lit "out_v1.txt"; lit "out_v2.json"; lit "out_v2.txt"]
  /\ map (fun d => dict_get d (lit "variation")) (heap st)
     = [Some (VInt 1); Some (VInt 3)].
Proof. vm_compute. split; reflexivity. Qed.

(** * Further properties *)

(** ** More on section extraction *)

Module ExtractMore.

Lemma split_on_not_nil (sep : cp) (s : str) : split_on sep s <> [].
Proof.
  destruct s as [|c t]; cbn [split_on]; [discriminate|].
  destruct (N.eqb c sep); [discriminate|].
  destruct (split_on sep t); discriminate.
Qed.

(** Splitting at the newlines and joining again gives the text back. *)
Lemma join_split_on (s : str) : join [nl] (split_on nl s) = s.
Proof.
  induction s as [|c t IH]; [reflexivity|]. cbn [split_on].
  destruct (N.eqb c nl) eqn:E.
  - apply N.eqb_eq in E. subst c. cbn [join].
    destruct (split_on nl t) eqn:S; [destruct (split_on_not_nil nl t S)|].
    rewrite IH. reflexivity.
  - destruct (split_on nl t) as [|l ls] eqn:S;
      [destruct (split_on_not_nil nl t S)|].
    cbn [join] in *. destruct ls; rewrite <- IH; reflexivity.
Qed.

(** The first line ends at the first newline. *)
Lemma split_on_first_line (h rest : str) :
  forallb (fun c => negb (N.eqb c nl)) h = true ->
  split_on nl (h ++ nl :: rest) = h :: split_on nl rest.
Proof.
  induction h as [|c h IH]; cbn [forallb app split_on].
  - intros _. rewrite N.eqb_refl. reflexivity.
  - rewrite andb_true_iff, negb_true_iff. intros [-> H].
    rewrite (IH H). reflexivity.
Qed.

Definition is_str (v : value) : bool :=
  match v with VStr _ => true | _ => false end.

Section Extract.
Context {U : Unicode}.

Lemma lstrip_head (s : str) (c : cp) (t : str) :
  lstrip s = c :: t -> isspace c = false.
Proof.
  induction s as [|x s IH]; cbn [lstrip]; [discriminate|].
  destruct (isspace x) eqn:E; [exact IH|].
  intros H. injection H as -> _. exact E.
Qed.

Lemma rstrip_head (c : cp) (t : str) :
  isspace c = false -> exists r, rstrip (c :: t) = c :: r.
Proof.
  intros E. cbn [rstrip]. destruct (rstrip t) as [|y r].
  - rewrite E. exists []. reflexivity.
  - exists (y :: r). reflexivity.
Qed.

Lemma rstrip_last (s : str) :
  forall init c, rstrip s = init ++ [c] -> isspace c = false.
Proof.
  induction s as [|x s IH]; intros init c; cbn [rstrip].
  - destruct init; discriminate.
  - destruct (rstrip s) as [|y r] eqn:R.
    + destruct (isspace x) eqn:E; [destruct init; discriminate|].
      destruct init as [|i init]; cbn [app].
      * intros H. injection H as ->. exact E.
      * intros H. injection H as _ H. destruct init; discriminate.
    + destruct init as [|i init]; cbn [app]; [discriminate|].
      intros H. injection H as _ H. exact (IH init c H).
Qed.

Lemma scan_name_upper (n1 n2 : str) (lines : list str) :
  upper n1 = upper n2 ->
  forall b acc, scan n1 lines b acc = scan n2 lines b acc.
Proof.
  intros E. induction lines as [|l lines IH]; intros b acc; [reflexivity|].
  cbn [scan]. unfold is_header. rewrite E.
  destruct (contains (upper n2) (upper l) && has_marker l); [apply IH|].
  destruct (b && is_stop l); [reflexivity|]. destruct b; apply IH.
Qed.

Lemma scan_collects (name : str) (lines : list str) :
  forall b acc l,
    In l (scan name lines b acc) ->
    In l acc \/ (In l lines /\ is_header name l = false).
Proof.
  induction lines as [|x lines IH]; intros b acc l; cbn [scan].
  - intros H. left. exact H.
  - destruct (is_header name x) eqn:Hx.
    + intros H. destruct (IH _ _ _ H) as [H'|[H' N]]; [left; exact H'|].
      right. split; [right; exact H'|exact N].
    + destruct (b && is_stop x); [intros H; left; exact H|].
      destruct b.
      * intros H. destruct (IH _ _ _ H) as [H'|[H' N]].
        -- apply in_app_or in H'. destruct H' as [H'|[<-|[]]].
           ++ left. exact H'.
           ++ right. split; [left; reflexivity|exact Hx].
        -- right. split; [right; exact H'|exact N].
      * intros H. destruct (IH _ _ _ H) as [H'|[H' N]]; [left; exact H'|].
        right. split; [right; exact H'|exact N].
Qed.

(** X1. A text or a section name that is not a string makes the body of
    the [try] raise, and [_extract_section] returns the sentinel. *)
Theorem extract_section_non_string :
  forall text section_name : value,
    is_str text && is_str section_name = false ->
    _extract_section text section_name = section_not_found.
Proof.
  intros text name H. unfold _extract_section, extract_body.
  destruct text as [s| |]; cbn [py_split_lines rbind]; try reflexivity.
  destruct name as [n| |]; [discriminate H| |];
    (destruct (split_on nl s) as [|l ls] eqn:S;
     [destruct (split_on_not_nil nl s S)|reflexivity]).
Qed.

(** X2. When no line of the text carries the section name together with a
    marker, the section is the empty string, whatever other markers and
    headers the text has. *)
Theorem extract_section_no_header :
  forall text name : str,
    forallb (fun l => negb (is_header name l)) (split_on nl text) = true ->
    _extract_section (VStr text) (VStr name) = [].
Proof.
  intros text name H. rewrite extract_section_str.
  rewrite <- (app_nil_r (split_on nl text)), scan_before by exact H.
  reflexivity.
Qed.

(** X3. The section name counts by its upper case only: two names with
    the same upper case select the same section. *)
Theorem extract_section_name_case :
  forall text n1 n2 : str,
    upper n1 = upper n2 ->
    _extract_section (VStr text) (VStr n1)
    = _extract_section (VStr text) (VStr n2).
Proof.
  intros text n1 n2 E. rewrite !extract_section_str.
  rewrite (scan_name_upper n1 n2 _ E). reflexivity.
Qed.

(** X4. A section extracted from strings has no white space at its start
    nor at its end. *)
Theorem extract_section_is_stripped :
  forall text name : str,
    let r := _extract_section (VStr text) (VStr name) in
    (forall c rest, r = c :: rest -> isspace c = false)
    /\ (forall init c, r = init ++ [c] -> isspace c = false).
Proof.
  intros text name r. subst r. rewrite extract_section_str. unfold strip.
  set (j := join [nl] _). split.
  - intros c rest H. destruct (lstrip j) as [|x t] eqn:L; [discriminate H|].
    pose proof (lstrip_head j x t L) as Hx.
    destruct (rstrip_head x t Hx) as [r' Hr]. rewrite Hr in H.
    injection H as <- _. exact Hx.
  - intros init c H. exact (rstrip_last _ init c H).
Qed.

(** X5. The lines the loop collects are lines of the text, and none of them
    is a header line of the section. *)
Theorem scan_lines_collects_text_lines :
  forall (name : str) (lines collected : list str),
    scan_lines (VStr name) lines false [] = Ok collected ->
    forall l, In l collected -> In l lines /\ is_header name l = false.
Proof.
  intros name lines collected H l Hl. rewrite scan_lines_str in H.
  injection H as <-. destruct (scan_collects name lines false [] l Hl)
    as [[]|H]. exact H.
Qed.

(** X6. A text that starts with the header line of a section and has
    after it no line with the section name and a marker, nor with a keyword
    and a marker, gives the whole rest of the text, stripped. *)
Theorem extract_section_to_end_of_text :
  forall header rest name : str,
    forallb (fun c => negb (N.eqb c nl)) header = true ->
    is_header name header = true ->
    forallb (fun l => negb (is_header name l) && negb (is_stop l))
      (split_on nl rest) = true ->
    _extract_section (VStr (header ++ nl :: rest)) (VStr name) = strip rest.
Proof.
  intros header rest name Hh Hhead Hbody.
  rewrite extract_section_str, (split_on_first_line header rest Hh).
  cbn [scan]. rewrite Hhead.
  rewrite <- (app_nil_r (split_on nl rest)), scan_inside by exact Hbody.
  cbn [scan app]. rewrite join_split_on. reflexivity.
Qed.

End Extract.
End ExtractMore.
Import ExtractMore.

Lemma extract_section_non_string_witness :
  _extract_section (U := ascii_tables) VNone (VStr (lit "HOOK"))
  = section_not_found
  /\ _extract_section (U := ascii_tables) (VStr five_response) (VInt 3)
     = section_not_found.
Proof.
  split.
  - exact (extract_section_non_string (U := ascii_tables) VNone
             (VStr (lit "HOOK")) eq_refl).
  - exact (extract_section_non_string (U := ascii_tables)
             (VStr five_response) (VInt 3) eq_refl).
Defined.

Lemma extract_section_no_header_witness :
  _extract_section (U := ascii_tables) (VStr five_response)
    (VStr (lit "SPONSOR")) = [].
Proof.
  exact (extract_section_no_header (U := ascii_tables) five_response
           (lit "SPONSOR") eq_refl).
Defined.

Lemma extract_section_name_case_witness :
  _extract_section (U := ascii_tables) (VStr five_response)
    (VStr (lit "Main Content"))
  = _extract_section (U := ascii_tables) (VStr five_response)
      (VStr (lit "MAIN CONTENT")).
Proof.
  exact (extract_section_name_case (U := ascii_tables) five_response
           (lit "Main Content") (lit "MAIN CONTENT") eq_refl).
Defined.

Lemma extract_section_is_stripped_witness :
  ascii_isspace (N_of_ascii "s"%char) = false.
Proof.
  exact (proj1 (extract_section_is_stripped (U := ascii_tables)
                  five_response (lit "MAIN CONTENT"))
           (N_of_ascii "s"%char)
           (lit "tuff" ++ [nl] ++ lit "and more stuff") eq_refl).
Defined.

Lemma scan_lines_collects_text_lines_witness :
  In (lit "hi") (split_on nl five_response)
  /\ is_header (U := ascii_tables) (lit "INTRODUCTION") (lit "hi") = false.
Proof.
  exact (scan_lines_collects_text_lines (U := ascii_tables)
           (lit "INTRODUCTION") (split_on nl five_response) [lit "hi"]
           eq_refl (lit "hi") (or_introl eq_refl)).
Defined.

Lemma extract_section_to_end_of_text_witness :
  _extract_section (U := ascii_tables)
    (VStr (lit "## Outro" ++ nl :: lit " Thanks for watching! " ++ nl
           :: lit "See you next time."))
    (VStr (lit "OUTRO"))
  = lit "Thanks for watching! " ++ nl :: lit "See you next time.".
Proof.
  exact (extract_section_to_end_of_text (U := ascii_tables) (lit "## Outro")
           (lit " Thanks for watching! " ++ nl :: lit "See you next time.")
           (lit "OUTRO") eq_refl eq_refl eq_refl).
Defined.

(** ** More on generation *)

Module GenerateMore.

Section Generate.
Context {U : Unicode}.
Variable w : world.
Variable topic : str.
Variable kw : kwargs.






(** X7. When the service answers, [generate_script] returns a reference to
    one new object, placed after the objects there were; the record has the
    topic and the answer as they are, the time of the clock, and the five
    sections extracted from the answer; nothing is printed, no file is
    written, the service is called once and the clock read once. *)
Theorem generate_script_success :
  forall (st : state) (content : value),
    attempt w topic kw (chat_calls st) = inr content ->
    exists st',
      generate_script topic kw w st = (Ok (length (heap st)), st')
      /\ heap st'
         = heap st
           ++ [[ (lit "topic", VStr topic);
                 (lit "generated_at",
                  VStr (isoformat (clock w (clock_reads st))));
                 (lit "full_script", content);
                 (lit "hook",
                  VStr (_extract_section content (VStr (lit "HOOK"))));
                 (lit "introduction",
                  VStr (_extract_section content
                          (VStr (lit "INTRODUCTION"))));
                 (lit "main_content",
                  VStr (_extract_section content
                          (VStr (lit "MAIN CONTENT"))));
                 (lit "call_to_action",
                  VStr (_extract_section content
                          (VStr (lit "CALL TO ACTION"))));
                 (lit "outro",
                  VStr (_extract_section content (VStr (lit "OUTRO")))) ]]
      /\ stdout st' = stdout st /\ files st' = files st
      /\ chat_calls st' = S (chat_calls st)
      /\ clock_reads st' = S (clock_reads st).
Proof.
  intros st content H. rewrite (generate_script_ok w topic kw st content H).
  eexists. split; [reflexivity|]. repeat split.
Qed.

(** X8. When the service raises, [generate_script] raises an [Exception]
    whose message is the service's, after "Error generating script: ";
    no object is made, nothing is printed or written, the clock is not
    read. *)
Theorem generate_script_failure :
  forall (st : state) (msg : str),
    attempt w topic kw (chat_calls st) = inl msg ->
    exists st',
      generate_script topic kw w st
      = (Raise (Exception (lit "Error generating script: " ++ msg)), st')
      /\ heap st' = heap st /\ stdout st' = stdout st
      /\ files st' = files st
      /\ chat_calls st' = S (chat_calls st)
      /\ clock_reads st' = clock_reads st.
Proof.
  intros st msg H. rewrite (generate_script_fail w topic kw st msg H).
  eexists. split; [reflexivity|]. repeat split.
Qed.


(** X10. A count below one makes no attempt: the result is empty and the
    state is as before. *)
Theorem batch_of_no_attempt :
  forall (st : state) (count : Z),
    (count <= 0)%Z ->
    generate_multiple_variations topic count kw w st = (Ok [], st).
Proof.
  intros st count H. unfold generate_multiple_variations.
  replace (Z.to_nat count) with 0 by lia. reflexivity.
Qed.


End Generate.
End GenerateMore.
Import GenerateMore.

(** A service that never answers. *)
Definition world_down : world :=
  {| getenv_api_key := Some (lit "sk-test");
     chat_completion := fun _ _ => inl (lit "connection refused");
     clock := sample_clock;
     open_error := fun _ => None |}.

Lemma generate_script_success_witness :
  exists st',
    generate_script (U := ascii_tables) cats no_kwargs world_ok empty_state
    = (Ok 0, st')
    /\ heap st'
       = [script_record (U := ascii_tables) cats (lit "2024-01-01T12:00:00")
            (VStr five_response)]
    /\ stdout st' = [] /\ files st' = []
    /\ chat_calls st' = 1 /\ clock_reads st' = 1.
Proof.
  exact (generate_script_success (U := ascii_tables) world_ok cats no_kwargs
           empty_state (VStr five_response) eq_refl).
Defined.

Lemma generate_script_failure_witness :
  exists st',
    generate_script (U := ascii_tables) cats no_kwargs world_down empty_state
    = (Raise (Exception (lit "Error generating script: "
                         ++ lit "connection refused")), st')
    /\ heap st' = [] /\ stdout st' = [] /\ files st' = []
    /\ chat_calls st' = 1 /\ clock_reads st' = 0.
Proof.
  exact (generate_script_failure (U := ascii_tables) world_down cats
           no_kwargs empty_state (lit "connection refused") eq_refl).
Defined.

Lemma batch_of_no_attempt_witness :
  generate_multiple_variations (U := ascii_tables) cats (-2) no_kwargs
    world_ok empty_state = (Ok [], empty_state).
Proof.
  exact (batch_of_no_attempt (U := ascii_tables) world_ok cats no_kwargs
           empty_state (-2) ltac:(lia)).
Defined.


(** ** More on persistence *)

Module SaveMore.


Lemma contains_cons_false (n : str) (c : cp) (t : str) :
  contains n (c :: t) = false ->
  starts_with n (c :: t) = false /\ contains n t = false.
Proof. cbn [contains]. apply orb_false_iff. Qed.

(** X12. The name of the text file is the name given exactly when the name
    does not contain ".json". *)
Theorem text_filename_same_iff :
  forall name : str,
    text_filename_of name = name <-> contains (lit ".json") name = false.
Proof.
  intros name. unfold text_filename_of, replace.
  change (lit ".json") with (dot :: lit "json").
  induction name as [|c t IH]; [split; reflexivity|].
  cbn [replace_from contains].
  destruct (starts_with (dot :: lit "json") (c :: t)) eqn:S.
  - split; [|discriminate].
    apply starts_with_iff in S. destruct S as [u Hu]. rewrite Hu.
    cbn. intros H. discriminate H.
  - cbn [orb]. rewrite <- IH. split.
    + intros H. injection H as H. exact H.
    + intros H. rewrite H. reflexivity.
Qed.

Section Save.
Context {U : Unicode}.



(** X15. With no file name given, a record without the key "topic" makes
    [save_script] raise [KeyError] before any file is opened. *)
Theorem save_script_without_topic_no_name :
  forall (r : ref) (filename : option str) (w : world) (st : state),
    truthy filename = false ->
    dict_get (deref st r) (lit "topic") = None ->
    exists st',
      save_script r filename w st = (Raise (KeyError (lit "topic")), st')
      /\ files st' = files st /\ heap st' = heap st
      /\ clock_reads st' = S (clock_reads st).
Proof.
  intros r filename w st Hn Ht. unfold save_script. rewrite Hn.
  unfold bind at 1. unfold bind at 1. unfold bind at 1.
  unfold datetime_now at 1. unfold getitem_ref at 1. unfold getitem.
  change (deref _ r) with (deref st r). rewrite Ht.
  eexists. split; [reflexivity|]. repeat split.
Qed.


(** X26. With a file name given that cannot be opened, [save_script]
    raises the [OSError] of [open] at once: no file is made or changed, no
    object is changed, nothing is printed. *)
Theorem save_script_cannot_open :
  forall (r : ref) (c : cp) (name : str) (w : world) (st : state)
         (msg : str),
    open_error w (c :: name) = Some msg ->
    save_script r (Some (c :: name)) w st = (Raise (OSError msg), st).
Proof. exact save_script_given_unopenable. Qed.


End Save.
End SaveMore.
Import SaveMore.


(** A state with one object that is not a script record. *)
Definition record_without_topic : state :=
  {| heap := [[(lit "full_script", VStr five_response)]];
     stdout := []; files := []; openai_api_key := Some (lit "sk-test");
     chat_calls := 1; clock_reads := 1 |}.

Lemma text_filename_same_iff_witness :
  text_filename_of (lit "out.dat") = lit "out.dat".
Proof.
  exact (proj2 (text_filename_same_iff (lit "out.dat")) eq_refl).
Defined.



Lemma save_script_without_topic_no_name_witness :
  exists st',
    save_script (U := ascii_tables) 0 None world_ok record_without_topic
    = (Raise (KeyError (lit "topic")), st')
    /\ files st' = files record_without_topic
    /\ heap st' = heap record_without_topic
    /\ clock_reads st' = S (clock_reads record_without_topic).
Proof.
  exact (save_script_without_topic_no_name (U := ascii_tables) 0 None
           world_ok record_without_topic eq_refl eq_refl).
Defined.


(** A file system without the directory "nodir". *)
Definition world_no_dir : world :=
  {| getenv_api_key := Some (lit "sk-test");
     chat_completion := fun _ _ => inr (VStr five_response);
     clock := sample_clock;
     open_error :=
       fun path =>
         if starts_with (lit "nodir/") path
         then Some (lit "[Errno 2] No such file or directory: '" ++ path
                    ++ lit "'")
         else None |}.


Lemma save_script_cannot_open_witness :
  save_script (U := ascii_tables) 0 (Some (lit "nodir/out.json"))
    world_no_dir one_record
  = (Raise (OSError (lit "[Errno 2] No such file or directory: 'nodir/out.json'")),
     one_record).
Proof.
  exact (save_script_cannot_open (U := ascii_tables) 0
           (N_of_ascii "n"%char) (lit "odir/out.json") world_no_dir
           one_record _ eq_refl).
Defined.


(** ** More on the command line *)

Module CliMore.

(** The state after some lines were printed. *)
Definition printed (st : state) (lines : list str) : state :=
  {| heap := heap st; stdout := stdout st ++ lines; files := files st;
     openai_api_key := openai_api_key st;
     chat_calls := chat_calls st; clock_reads := clock_reads st |}.

(** The state after the credential was set. *)
Definition keyed (st : state) (k : str) : state :=
  {| heap := heap st; stdout := stdout st; files := files st;
     openai_api_key := Some k;
     chat_calls := chat_calls st; clock_reads := clock_reads st |}.

Lemma init_with_env_key (w : world) (st : state) (c : cp) (k : str) :
  getenv_api_key w = Some (c :: k) ->
  __init__ None w st = (Ok {| api_key := c :: k |}, keyed st (c :: k)).
Proof.
  intros H. unfold __init__, bind, os_getenv. cbn [truthy]. rewrite H.
  reflexivity.
Qed.

Lemma init_without_usable_key (w : world) (st : state) :
  truthy (getenv_api_key w) = false ->
  __init__ None w st = (Raise (ValueError missing_key_message), st).
Proof.
  intros H. unfold __init__, bind, os_getenv. cbn [truthy].
  destruct (getenv_api_key w) as [[|c k]|]; [reflexivity|discriminate H|].
  reflexivity.
Qed.

(** What is printed for an exception with a given message: the error
    line, then the steps of remediation if the message contains
    "API key". *)
Definition report (message : str) : list str :=
  error_report message
  :: (if contains (lit "API key") message then remediation_steps else []).

Lemma handler_spec {out : Stdout} (e : exn) (w : world) (st : state) :
  takes (report (exn_str e)) = true ->
  (print (Cli.cross_mark :: lit " Error: " ++ exn_str e) ;;
   if contains (lit "API key") (exn_str e)
   then Cli.print_all Cli.remediation
   else ret tt) w st
  = (Ok tt, printed st (report (exn_str e))).
Proof.
  unfold report. intros Ht. cbn [takes forallb] in Ht.
  apply andb_prop in Ht as [H1 H2].
  change (Cli.cross_mark :: lit " Error: " ++ exn_str e)
    with (error_report (exn_str e)).
  change Cli.remediation with remediation_steps.
  unfold bind. rewrite (print_fits _ w st H1). unfold printed.
  destruct (contains (lit "API key") (exn_str e)).
  - rewrite (print_all_takes _ _ _ H2).
    cbn [heap stdout files openai_api_key chat_calls clock_reads].
    rewrite <- app_assoc. reflexivity.
  - reflexivity.
Qed.


(** One [print] of a sequence, of a text that the stream is known to
    take, with the state kept in normal form. *)
Ltac print_step :=
  unfold bind at 1; rewrite print_fits by assumption;
  cbn [heap stdout files openai_api_key chat_calls clock_reads].

(** The four lines printed first, each after its sign: a clapper board
    (U+1F3AC), a ruler (U+1F4CF), masks (U+1F3AD), two busts (U+1F465). *)
Definition banner (a : Cli.args) : list str :=
  [ 127916%N :: lit " Generating script(s) for: " ++ Cli.topic a;
    128207%N :: lit " Length: " ++ Cli.length_ a;
    127917%N :: lit " Style: " ++ Cli.style_ a;
    128101%N :: lit " Audience: " ++ Cli.audience a ].

Section Main.
Context {U : Unicode} {out : Stdout}.

(** X18. An empty value of the environment variable counts as no
    credential: on a standard output that takes the error line and the
    five lines of remediation, [main] prints the error line with the
    message of the constructor and the five lines, and stops before any
    call of the service, with no object made and no file written. *)
Theorem cli_without_usable_key :
  forall (a : Cli.args) (w : world) (st : state),
    truthy (getenv_api_key w) = false ->
    let lines :=
      error_report
        (lit "OpenAI API key is required. Set OPENAI_API_KEY environment variable or pass it directly.")
      :: remediation_steps in
    takes lines = true ->
    Cli.main a w st = (Ok tt, printed st lines).
Proof.
  intros a w st H lines Ht. unfold Cli.main, try_except, Cli.main_body.
  unfold bind at 1. rewrite (init_without_usable_key w st H).
  rewrite handler_spec; [reflexivity|exact Ht].
Qed.

(** X19. With a credential and a count of variations below two, a failure
    of the service is reported and nothing else happens: on a standard
    output that takes these lines, after the four lines of the banner comes
    the error line, and after it the five lines of remediation if the
    message contains "API key", nothing if it does not; no file is
    written, no object made. *)
Theorem cli_single_service_failure :
  forall (a : Cli.args) (w : world) (st : state) (c : cp) (k msg : str),
    getenv_api_key w = Some (c :: k) ->
    (Cli.variations a <= 1)%Z ->
    chat_completion w (chat_calls st)
      (prompt_of (Cli.topic a) (Cli.kwargs_of a)) = inl msg ->
    let message := lit "Error generating script: " ++ msg in
    let lines :=
      banner a ++ [error_report message]
      ++ (if contains (lit "API key") message
          then remediation_steps else []) in
    takes lines = true ->
    exists st',
      Cli.main a w st = (Ok tt, st')
      /\ stdout st' = stdout st ++ lines
      /\ files st' = files st /\ heap st' = heap st
      /\ chat_calls st' = S (chat_calls st).
Proof.
  intros a w st c k msg Hkey Hv Hfail message lines Ht.
  unfold lines, banner in Ht. cbn [takes forallb app] in Ht.
  apply andb_prop in Ht as [Hb1 Ht]. apply andb_prop in Ht as [Hb2 Ht].
  apply andb_prop in Ht as [Hb3 Ht]. apply andb_prop in Ht as [Hb4 Ht].
  unfold Cli.main, try_except, Cli.main_body.
  unfold bind at 1. rewrite (init_with_env_key w st c k Hkey).
  unfold keyed. do 4 print_step.
  replace (Z.ltb 1 (Cli.variations a)) with false
    by (symmetry; apply Z.ltb_ge; exact Hv).
  unfold bind at 1.
  match goal with |- context [generate_script _ _ _ ?s] =>
    rewrite (generate_script_fail w (Cli.topic a) (Cli.kwargs_of a) s msg
               Hfail) end.
  rewrite handler_spec by exact Ht. eexists. split; [reflexivity|].
  cbn [printed heap stdout files chat_calls exn_str].
  unfold lines, banner, report. fold message.
  rewrite <- !app_assoc.
  split; [reflexivity|]. split; [reflexivity|]. split; reflexivity.
Qed.

(** X30. With a credential, on a standard output that takes neither the
    first line of the banner nor the error line that reports this, [main]
    ends with the [UnicodeEncodeError] of the [print] of its handler:
    nothing is printed, the service is not called, no file is written. *)
Theorem cli_banner_refused :
  forall (a : Cli.args) (w : world) (st : state) (c : cp) (k m1 m2 : str),
    getenv_api_key w = Some (c :: k) ->
    encode_error
      (127916%N :: lit " Generating script(s) for: " ++ Cli.topic a)
    = Some m1 ->
    encode_error (error_report m1) = Some m2 ->
    Cli.main a w st = (Raise (UnicodeEncodeError m2), keyed st (c :: k)).
Proof.
  intros a w st c k m1 m2 Hkey H1 H2.
  unfold Cli.main, try_except, Cli.main_body.
  unfold bind at 1. rewrite (init_with_env_key w st c k Hkey).
  unfold bind at 1.
  change (Cli.clapper :: lit " Generating script(s) for: " ++ Cli.topic a)
    with (127916%N :: lit " Generating script(s) for: " ++ Cli.topic a).
  rewrite (print_refused _ m1 w _ H1).
  change (Cli.cross_mark :: lit " Error: "
          ++ exn_str (UnicodeEncodeError m1))
    with (error_report m1).
  unfold bind. rewrite (print_refused _ m2 w _ H2). reflexivity.
Qed.


End Main.
End CliMore.
Import CliMore.

Module CliRun.

Section Main.
Context {U : Unicode} {out : Stdout}.

(** [s[:400] + "..."] for a long script, the script itself otherwise. *)
Definition preview_text (s : str) : str :=
  if Nat.ltb 400 (length s) then firstn 400 s ++ lit "..." else s.

Lemma preview_of_str (s : str) (w : world) (st : state) :
  Cli.preview_of (VStr s) w st = (Ok (VStr (preview_text s)), st).
Proof.
  unfold Cli.preview_of, bind, lift, preview_text. cbn [py_len].
  destruct (Nat.ltb 400 (length s)); reflexivity.
Qed.

(** X20. The preview of a script is never longer than 403 characters: a
    script of at most 400 characters is shown whole, a longer one by its
    first 400 characters and three dots. *)
Theorem preview_is_bounded :
  forall (s : str) (w : world) (st : state),
    exists p,
      Cli.preview_of (VStr s) w st = (Ok (VStr p), st)
      /\ length p <= 403
      /\ (length s <= 400 -> p = s)
      /\ (400 < length s -> p = firstn 400 s ++ lit "...").
Proof.
  intros s w st. exists (preview_text s).
  split; [apply preview_of_str|]. unfold preview_text.
  destruct (Nat.ltb 400 (length s)) eqn:E.
  - apply Nat.ltb_lt in E. split.
    + rewrite length_app, length_firstn.
      change (length (lit "...")) with 3. lia.
    + split; [lia|reflexivity].
  - apply Nat.ltb_ge in E. split; [lia|]. split; [reflexivity|lia].
Qed.




(** X28. With a credential, a count of variations below two and a service
    that answers, an output name that cannot be opened makes [main] report
    the [OSError] of [open]: on a standard output that takes these lines,
    after the banner comes the error line with the message of the error;
    no file is written; the record of the answer was made and the service
    called once. *)
Theorem cli_single_cannot_open :
  forall (a : Cli.args) (w : world) (st : state) (c k : cp)
         (key name msg : str) (content : value),
    getenv_api_key w = Some (k :: key) ->
    (Cli.variations a <= 1)%Z ->
    Cli.output a = Some (c :: name) ->
    chat_completion w (chat_calls st)
      (prompt_of (Cli.topic a) (Cli.kwargs_of a)) = inr content ->
    open_error w (c :: name) = Some msg ->
    let lines :=
      banner a ++ [error_report msg]
      ++ (if contains (lit "API key") msg then remediation_steps else []) in
    takes lines = true ->
    exists st',
      Cli.main a w st = (Ok tt, st')
      /\ stdout st' = stdout st ++ lines
      /\ files st' = files st
      /\ heap st'
         = heap st
           ++ [script_record (Cli.topic a)
                 (isoformat (clock w (clock_reads st))) content]
      /\ chat_calls st' = S (chat_calls st).
Proof.
  intros a w st c k key name msg content Hkey Hv Hout Hchat Ho lines Ht.
  unfold lines, banner in Ht. cbn [takes forallb app] in Ht.
  apply andb_prop in Ht as [Hb1 Ht]. apply andb_prop in Ht as [Hb2 Ht].
  apply andb_prop in Ht as [Hb3 Ht]. apply andb_prop in Ht as [Hb4 Ht].
  unfold Cli.main, try_except, Cli.main_body.
  unfold bind at 1. rewrite (init_with_env_key w st k key Hkey).
  unfold keyed. do 4 print_step.
  replace (Z.ltb 1 (Cli.variations a)) with false
    by (symmetry; apply Z.ltb_ge; exact Hv).
  unfold bind at 1.
  match goal with |- context [generate_script _ _ _ ?s] =>
    rewrite (generate_script_ok w (Cli.topic a) (Cli.kwargs_of a) s
               content Hchat) end.
  cbn [heap stdout files openai_api_key chat_calls clock_reads].
  rewrite Hout. unfold bind at 1.
  rewrite (save_script_given_unopenable _ c name w _ msg Ho).
  rewrite handler_spec by exact Ht. eexists. split; [reflexivity|].
  cbn [printed heap stdout files chat_calls exn_str].
  unfold lines, banner, report. rewrite <- !app_assoc.
  split; [reflexivity|]. split; [reflexivity|]. split; reflexivity.
Qed.

End Main.
End CliRun.
Import CliRun.

Lemma cli_without_usable_key_witness :
  Cli.main (U := ascii_tables) (out := text_stream) (sample_args 3 None)
    {| getenv_api_key := Some [];
       chat_completion := chat_completion world_ok;
       clock := sample_clock;
       open_error := fun _ => None |} empty_state
  = (Ok tt,
     printed empty_state
       (error_report
          (lit "OpenAI API key is required. Set OPENAI_API_KEY environment variable or pass it directly.")
        :: remediation_steps)).
Proof.
  exact (cli_without_usable_key (U := ascii_tables) (out := text_stream)
           (sample_args 3 None)
           {| getenv_api_key := Some [];
              chat_completion := chat_completion world_ok;
              clock := sample_clock;
              open_error := fun _ => None |} empty_state eq_refl eq_refl).
Defined.

(** The messages of the 'ascii' stream for three texts, and a text it
    takes. *)
Lemma ascii_stream_messages :
  encode_error (Stdout := ascii_stream) (lit "Error: no key") = None
  /\ encode_error (Stdout := ascii_stream) (10060%N :: lit " Error: no key")
     = Some (lit "'ascii' codec can't encode character '"
             ++ backslash
             :: lit "u274c' in position 0: ordinal not in range(128)")
  /\ encode_error (Stdout := ascii_stream) (lit "caf" ++ [233%N])
     = Some (lit "'ascii' codec can't encode character '"
             ++ backslash
             :: lit "xe9' in position 3: ordinal not in range(128)")
  /\ encode_error (Stdout := ascii_stream)
       (lit "ab" ++ [10060%N; 128273%N] ++ lit " c")
     = Some (lit "'ascii' codec can't encode characters in position 2-3: ordinal not in range(128)").
Proof.
  split; [reflexivity|]. split; [reflexivity|]. split; reflexivity.
Qed.

Lemma cli_banner_refused_witness :
  Cli.main (U := ascii_tables) (out := ascii_stream) (sample_args 1 None)
    world_ok empty_state
  = (Raise (UnicodeEncodeError
              (lit "'ascii' codec can't encode character '"
               ++ backslash
               :: lit "u274c' in position 0: ordinal not in range(128)")),
     keyed empty_state (lit "sk-test")).
Proof.
  exact (cli_banner_refused (U := ascii_tables) (out := ascii_stream)
           (sample_args 1 None) world_ok empty_state (N_of_ascii "s"%char)
           (lit "k-test") _ _ eq_refl eq_refl eq_refl).
Defined.


(** A service that refuses the credential. *)
Definition world_bad_key : world :=
  {| getenv_api_key := Some (lit "sk-test");
     chat_completion := fun _ _ => inl (lit "Incorrect API key provided");
     clock := sample_clock;
     open_error := fun _ => None |}.

Lemma cli_single_service_failure_witness :
  (exists st',
      Cli.main (U := ascii_tables) (out := text_stream) (sample_args 1 None)
        world_down empty_state = (Ok tt, st')
      /\ stdout st'
         = stdout empty_state ++ banner (sample_args 1 None)
           ++ [error_report
                 (lit "Error generating script: connection refused")]
           ++ []
      /\ files st' = files empty_state /\ heap st' = heap empty_state
      /\ chat_calls st' = S (chat_calls empty_state))
  /\ (exists st',
         Cli.main (U := ascii_tables) (out := text_stream)
           (sample_args 1 None) world_bad_key empty_state = (Ok tt, st')
         /\ stdout st'
            = stdout empty_state ++ banner (sample_args 1 None)
              ++ [error_report
                    (lit "Error generating script: Incorrect API key provided")]
              ++ remediation_steps
         /\ files st' = files empty_state /\ heap st' = heap empty_state
         /\ chat_calls st' = S (chat_calls empty_state)).
Proof.
  split.
  - exact (cli_single_service_failure (U := ascii_tables)
             (out := text_stream)
             (sample_args 1 None) world_down empty_state
             (N_of_ascii "s"%char) (lit "k-test")
             (lit "connection refused") eq_refl ltac:(cbn; lia) eq_refl
             eq_refl).
  - exact (cli_single_service_failure (U := ascii_tables)
             (out := text_stream)
             (sample_args 1 None) world_bad_key empty_state
             (N_of_ascii "s"%char) (lit "k-test")
             (lit "Incorrect API key provided") eq_refl ltac:(cbn; lia)
             eq_refl eq_refl).
Defined.


Lemma cli_single_cannot_open_witness :
  exists st',
    Cli.main (U := ascii_tables) (out := text_stream)
      (sample_args 1 (Some (lit "nodir/out.json"))) world_no_dir empty_state
    = (Ok tt, st')
    /\ stdout st'
       = stdout empty_state
         ++ banner (sample_args 1 (Some (lit "nodir/out.json")))
         ++ [error_report
               (lit "[Errno 2] No such file or directory: 'nodir/out.json'")]
         ++ []
    /\ files st' = files empty_state
    /\ heap st'
       = heap empty_state
         ++ [script_record (U := ascii_tables) cats
               (lit "2024-01-01T12:00:00") (VStr five_response)]
    /\ chat_calls st' = S (chat_calls empty_state).
Proof.
  exact (cli_single_cannot_open (U := ascii_tables) (out := text_stream)
           (sample_args 1 (Some (lit "nodir/out.json"))) world_no_dir
           empty_state (N_of_ascii "n"%char) (N_of_ascii "s"%char)
           (lit "k-test") (lit "odir/out.json") _ (VStr five_response)
           eq_refl ltac:(cbn; lia) eq_refl eq_refl eq_refl eq_refl).
Defined.

(** ** The example [main] of script_generator.py *)

Module ExampleMain.


(** The three lines printed when the credential is missing. *)
Definition key_help : list str :=
  [ lit "Error: " ++ missing_key_message;
    lit "Please set your OpenAI API key as an environment variable:";
    lit "export OPENAI_API_KEY='your-api-key-here'" ].

Section Main.
Context {U : Unicode}.


(** X23. Without a usable credential the example [main] prints the error
    and two lines of help, and returns before anything else: no call of
    the service, no object, no file. *)
Theorem example_main_without_key :
  forall (w : world) (st : state),
    truthy (getenv_api_key w) = false ->
    main w st = (Ok tt, printed st key_help).
Proof.
  intros w st H. unfold main. unfold bind at 1.
  unfold try_except_ValueError. unfold bind at 1.
  rewrite (init_without_usable_key w st H). cbn [is_ValueError].
  unfold bind, print, ret, printed, key_help.
  cbn [heap stdout files openai_api_key chat_calls clock_reads exn_str
       encode_error text_stream].
  rewrite <- !app_assoc. reflexivity.
Qed.

End Main.
End ExampleMain.
Import ExampleMain.

Lemma example_main_without_key_witness :
  main (U := ascii_tables) world_no_key empty_state
  = (Ok tt, printed empty_state key_help).
Proof.
  exact (example_main_without_key (U := ascii_tables) world_no_key
           empty_state eq_refl).
Defined.

(** ** Variations saved without an output name *)

Section Collision.
Context {U : Unicode} {out : Stdout}.





End Collision.




(** ** The prompt and its parameters *)

Ltac find_in_template :=
  repeat first
    [ apply contains_here
    | apply contains_app_l; vm_compute; reflexivity
    | apply contains_app_r ].

(** X25. The prompt holds each of its five parameters as it was given. *)
Theorem build_prompt_embeds_parameters :
  forall topic video_length style target_audience additional_requirements,
    Forall
      (fun parameter =>
         contains parameter
           (_build_prompt topic video_length style target_audience
              additional_requirements) = true)
      [topic; video_length; style; target_audience; additional_requirements].
Proof.
  intros topic vl st ta ar. unfold _build_prompt.
  repeat apply Forall_cons; [..|apply Forall_nil]; find_in_template.
Qed.

Lemma preview_is_bounded_witness :
  exists p,
    Cli.preview_of (VStr cats) world_ok empty_state
    = (Ok (VStr p), empty_state)
    /\ length p <= 403 /\ p = cats.
Proof.
  destruct (preview_is_bounded cats world_ok empty_state)
    as [p [H1 [H2 [H3 _]]]].
  exists p. split; [exact H1|]. split; [exact H2|].
  apply H3. cbn. lia.
Defined.
